(** * SMSRPy: the seeded level generator, the course browser and the
      narrative slideshow

    A shallow embedding of the three prototypes of the repository:
    - [starroad4k6.8.25.py]: [CourseBrowser] and
      [SimpleMarioWorld._setup_world], the grid generator seeded with
      [hash(course_name)];
    - [supermarioss.py]: [progress_story] and its two global counters.

    The programs run on CPython and call into its runtime: [hash] on [str],
    [random.seed] and [random.random].  Those three are modelled twice: as an
    interface ([PyRuntime]) over which the general theorems are proved, and as
    CPython 3.11 implements them (SipHash-1-3 keyed by the per-process hash
    secret, MT19937 seeded by [init_by_array]), which is the instance the
    concrete evaluations use. *)

From Stdlib Require Import ZArith Lia SpecFloat Ascii String.
From stdpp Require Import base tactics option list gmap strings pretty.

Local Open Scope Z_scope.

(* ===================================================================== *)
(** * Python values                                                       *)
(* ===================================================================== *)

(** ** Exceptions

    A Python call either returns or raises.  [IndexError] is what list
    subscripting raises out of range. *)

Inductive exn : Set :=
  | IndexError.

Inductive outcome (A : Type) : Type :=
  | Returned (a : A)
  | Raised (e : exn).
Arguments Returned {A} a.
Arguments Raised {A} e.

#[global] Instance outcome_ret : MRet outcome := fun A a => Returned a.
#[global] Instance outcome_bind : MBind outcome := fun A B k m =>
  match m with
  | Returned a => k a
  | Raised e => Raised e
  end.

(** ** Floats

    A Python [float] is an IEEE 754 binary64: [spec_float] with 53 bits of
    precision and [emax = 1024]. *)

Module PyFloat.

Definition prec : Z := 53.
Definition emax : Z := 1024.

Definition float : Set := spec_float.

Definition add : float -> float -> float := SFadd prec emax.
Definition sub : float -> float -> float := SFsub prec emax.
Definition mul : float -> float -> float := SFmul prec emax.
Definition div : float -> float -> float := SFdiv prec emax.
Definition ltb : float -> float -> bool := SFltb.
Definition leb : float -> float -> bool := SFleb.

(** [float(n)] for an integer that fits exactly. *)
Definition of_Z (n : Z) : float := binary_normalize prec emax n 0 false.

(** [m * 2^e], rounded to nearest even. *)
Definition of_scaled (m e : Z) : float := binary_normalize prec emax m e false.

Definition zero : float := S754_zero false.
Definition one : float := Eval vm_compute in of_Z 1.

(** The half-open unit interval, the range of [random.random()]. *)
Definition in_unit (r : float) : Prop :=
  leb zero r = true /\ ltb r one = true.

(** [num / den] is within half a unit in the last place of the finite
    positive float [f]: when it holds, [f] is the float the decimal literal
    [num / den] denotes. *)
Definition nearest (num den : Z) (f : float) : Prop :=
  match f with
  | S754_finite false m e =>
      valid_binary prec emax f = true /\
      2 * Z.abs (num * 2 ^ (- e) - Z.pos m * den) <= den
  | _ => False
  end.

End PyFloat.

Abbreviation float := PyFloat.float.

(** ** Strings

    A Python [str] is a sequence of code points.  It is written here as a
    Rocq string holding its UTF-8 encoding, and decoded where the code points
    matter (hashing). *)

Definition byte_of (c : ascii) : Z := Z.of_N (Ascii.N_of_ascii c).

Fixpoint bytes_of (s : string) : list Z :=
  match s with
  | EmptyString => []
  | String c s' => byte_of c :: bytes_of s'
  end.

(** The low six bits of a continuation byte. *)
Definition cont (b : Z) : Z := Z.land b 63.

Fixpoint utf8_decode (fuel : nat) (bs : list Z) : list Z :=
  match fuel with
  | O => []
  | S fuel' =>
      match bs with
      | [] => []
      | b0 :: rest =>
          if b0 <? 128 then b0 :: utf8_decode fuel' rest
          else if b0 <? 224 then
            match rest with
            | b1 :: rest' =>
                (Z.shiftl (Z.land b0 31) 6 + cont b1) :: utf8_decode fuel' rest'
            | _ => []
            end
          else if b0 <? 240 then
            match rest with
            | b1 :: b2 :: rest' =>
                (Z.shiftl (Z.land b0 15) 12 + Z.shiftl (cont b1) 6 + cont b2)
                  :: utf8_decode fuel' rest'
            | _ => []
            end
          else
            match rest with
            | b1 :: b2 :: b3 :: rest' =>
                (Z.shiftl (Z.land b0 7) 18 + Z.shiftl (cont b1) 12
                 + Z.shiftl (cont b2) 6 + cont b3)
                  :: utf8_decode fuel' rest'
            | _ => []
            end
      end
  end.

Definition codepoints (s : string) : list Z :=
  let bs := bytes_of s in utf8_decode (length bs) bs.

(* ===================================================================== *)
(** * The CPython runtime                                                 *)
(* ===================================================================== *)

(** ** Machine words *)

Definition wrap32 (x : Z) : Z := x mod 2 ^ 32.
Definition wrap64 (x : Z) : Z := x mod 2 ^ 64.

(** The integer a list of bytes spells, least significant byte first. *)
Fixpoint le_word (bs : list Z) : Z :=
  match bs with
  | [] => 0
  | b :: bs' => Z.lor b (Z.shiftl (le_word bs') 8)
  end.

(** ** [hash(str)]: SipHash-1-3 over the PEP 393 buffer

    [Python/pyhash.c].  The key [(k0, k1)] is the first sixteen bytes of the
    hash secret, which the interpreter draws once when the process starts:
    from the operating system, or from [PYTHONHASHSEED]. *)

Module SipHash.

Definition rotl (x b : Z) : Z :=
  wrap64 (Z.lor (Z.shiftl x b) (Z.shiftr x (64 - b))).

Record vars := V { v0 : Z; v1 : Z; v2 : Z; v3 : Z }.

(** [HALF_ROUND(a,b,c,d,s,t)] returns the new [(a, b, c, d)]. *)
Definition half_round (a b c d s t : Z) : Z * Z * Z * Z :=
  let a := wrap64 (a + b) in
  let c := wrap64 (c + d) in
  let b := Z.lxor (rotl b s) a in
  let d := Z.lxor (rotl d t) c in
  let a := rotl a 32 in
  (a, b, c, d).

Definition single_round (v : vars) : vars :=
  let '(a, b, c, d) := half_round (v0 v) (v1 v) (v2 v) (v3 v) 13 16 in
  let '(c, b, a, d) := half_round c b a d 17 21 in
  V a b c d.

Definition absorb (v : vars) (mi : Z) : vars :=
  let v := V (v0 v) (v1 v) (v2 v) (Z.lxor (v3 v) mi) in
  let v := single_round v in
  V (Z.lxor (v0 v) mi) (v1 v) (v2 v) (v3 v).

(** The [while (src_sz >= 8)] loop; returns the state and the tail of
    fewer than eight bytes. *)
Fixpoint blocks (fuel : nat) (v : vars) (src : list Z) : vars * list Z :=
  match fuel with
  | O => (v, src)
  | S fuel' =>
      if (8 <=? Z.of_nat (length src))%Z
      then blocks fuel' (absorb v (le_word (take 8 src))) (drop 8 src)
      else (v, src)
  end.

Definition siphash13 (k0 k1 : Z) (src : list Z) : Z :=
  let b := wrap64 (Z.shiftl (Z.of_nat (length src)) 56) in
  let v := V (Z.lxor k0 0x736f6d6570736575) (Z.lxor k1 0x646f72616e646f6d)
             (Z.lxor k0 0x6c7967656e657261) (Z.lxor k1 0x7465646279746573) in
  let '(v, tail) := blocks (length src) v src in
  let b := Z.lor b (le_word tail) in
  let v := absorb v b in
  let v := V (v0 v) (v1 v) (Z.lxor (v2 v) 0xff) (v3 v) in
  let v := single_round (single_round (single_round v)) in
  Z.lxor (Z.lxor (v0 v) (v1 v)) (Z.lxor (v2 v) (v3 v)).

End SipHash.

(** [lcg_urandom] of [Python/bootstrap_hash.c]: the hash secret that
    [PYTHONHASHSEED=x0] gives ([x0 = 0] gives the all-zero secret). *)
Fixpoint lcg_urandom (size : nat) (x : Z) : list Z :=
  match size with
  | O => []
  | S size' =>
      let x := wrap32 (wrap32 (x * 214013) + 2531011) in
      Z.land (Z.shiftr x 16) 0xff :: lcg_urandom size' x
  end.

Definition hash_secret (pythonhashseed : Z) : Z * Z :=
  if pythonhashseed =? 0 then (0, 0)
  else let s := lcg_urandom 24 pythonhashseed in
       (le_word (take 8 s), le_word (take 8 (drop 8 s))).

(** The PEP 393 buffer of a string: one, two or four bytes per code point,
    by the largest code point. *)
Definition le_bytes (n : nat) (c : Z) : list Z :=
  map (fun i => Z.land (Z.shiftr c (8 * Z.of_nat i)) 0xff) (seq 0 n).

Definition unicode_kind (cps : list Z) : nat :=
  let m := foldr Z.max 0 cps in
  if m <? 256 then 1%nat else if m <? 65536 then 2%nat else 4%nat.

Definition unicode_data (cps : list Z) : list Z :=
  flat_map (le_bytes (unicode_kind cps)) cps.

(** [unicode_hash] with [_Py_HashBytes]: the empty string hashes to 0, the
    result is a signed 64-bit integer, and -1 is replaced by -2. *)
Definition unicode_hash (key : Z * Z) (s : string) : Z :=
  let data := unicode_data (codepoints s) in
  match data with
  | [] => 0
  | _ =>
      let t := SipHash.siphash13 (fst key) (snd key) data in
      let x := if t <? 2 ^ 63 then t else t - 2 ^ 64 in
      if x =? -1 then -2 else x
  end.

(** ** [random]: the Mersenne Twister

    [Modules/_randommodule.c].  The state is the array [mt] of 624 words of 32
    bits and the position [index] of the next word to temper; the accesses
    below stay inside the array. *)

Module MT.

Definition N : nat := 624.
Definition M : nat := 397.
Definition MATRIX_A : Z := 0x9908b0df.
Definition UPPER_MASK : Z := 0x80000000.
Definition LOWER_MASK : Z := 0x7fffffff.

Record state := St { mt : list Z; index : nat }.

Definition mag01 (y : Z) : Z := if Z.testbit y 0 then MATRIX_A else 0.

(** One iteration of the three regeneration loops: [mt[kk]] from
    [mt[kk]], [mt[next]] and [mt[far]]. *)
Definition twist_at (kk next far : nat) (mt : list Z) : list Z :=
  let y := Z.lor (Z.land (mt !!! kk) UPPER_MASK)
                 (Z.land (mt !!! next) LOWER_MASK) in
  <[kk := Z.lxor (Z.lxor (mt !!! far) (Z.shiftr y 1)) (mag01 y)]> mt.

Definition twist (mt : list Z) : list Z :=
  let mt := foldl (fun mt kk => twist_at kk (kk + 1) (kk + M) mt)
                  mt (seq 0 (N - M)) in
  let mt := foldl (fun mt kk => twist_at kk (kk + 1) (kk + M - N) mt)
                  mt (seq (N - M) (M - 1)) in
  twist_at (N - 1) 0 (M - 1) mt.

Definition temper (y : Z) : Z :=
  let y := Z.lxor y (Z.shiftr y 11) in
  let y := Z.lxor y (Z.land (wrap32 (Z.shiftl y 7)) 0x9d2c5680) in
  let y := Z.lxor y (Z.land (wrap32 (Z.shiftl y 15)) 0xefc60000) in
  Z.lxor y (Z.shiftr y 18).

(** The result is a [uint32_t]. *)
Definition genrand_uint32 (s : state) : Z * state :=
  let s := if (N <=? index s)%nat then St (twist (mt s)) 0 else s in
  (wrap32 (temper (mt s !!! index s)), St (mt s) (S (index s))).

(** [mt[0] = s], then [mt[mti]] from [mt[mti-1]] for [mti] in [1, N). *)
Fixpoint init_genrand_from (n : nat) (mti : Z) (prev : Z) : list Z :=
  match n with
  | O => []
  | S n' =>
      let x := wrap32 (wrap32 (1812433253 * Z.lxor prev (Z.shiftr prev 30)) + mti) in
      x :: init_genrand_from n' (mti + 1) x
  end.

Definition init_genrand (s : Z) : state :=
  St (s :: init_genrand_from (N - 1) 1 s) N.

(** The loop variables of [init_by_array]. *)
Record cursor := Cur { arr : list Z; ci : nat; cj : nat }.

Definition advance_i (c : cursor) : cursor :=
  let i := S (ci c) in
  if (N <=? i)%nat
  then Cur (<[0%nat := arr c !!! (N - 1)%nat]> (arr c)) 1 (cj c)
  else Cur (arr c) i (cj c).

Definition mix (c : cursor) (mult : Z) : Z :=
  let prev := arr c !!! (ci c - 1)%nat in
  Z.lxor (arr c !!! ci c) (wrap32 (Z.lxor prev (Z.shiftr prev 30) * mult)).

Definition key_step (init_key : list Z) (c : cursor) : cursor :=
  let x := wrap32 (mix c 1664525 + init_key !!! cj c + Z.of_nat (cj c)) in
  let c := advance_i (Cur (<[ci c := x]> (arr c)) (ci c) (cj c)) in
  let j := S (cj c) in
  Cur (arr c) (ci c) (if (length init_key <=? j)%nat then 0 else j).

Definition final_step (c : cursor) : cursor :=
  let x := wrap32 (mix c 1566083941 - Z.of_nat (ci c)) in
  advance_i (Cur (<[ci c := x]> (arr c)) (ci c) (cj c)).

Definition init_by_array (init_key : list Z) : state :=
  let s := init_genrand 19650218 in
  let k := Nat.max N (length init_key) in
  let c := Nat.iter k (key_step init_key) (Cur (mt s) 1 0) in
  let c := Nat.iter (N - 1) final_step c in
  St (<[0%nat := 0x80000000]> (arr c)) (index s).

(** The 32-bit words of a non-negative integer, least significant first;
    at least one word. *)
Fixpoint key_words (fuel : nat) (n : Z) : list Z :=
  match fuel with
  | O => []
  | S fuel' =>
      wrap32 n :: (if Z.shiftr n 32 =? 0 then [] else key_words fuel' (Z.shiftr n 32))
  end.

(** [random.seed(a)] for an [int]: the key is [abs(a)]. *)
Definition seed (a : Z) : state :=
  let n := Z.abs a in
  init_by_array (key_words (S (Z.to_nat (Z.log2 n))) n).

(** [random.random()]:
    [a = genrand >> 5], [b = genrand >> 6],
    [(a * 67108864.0 + b) * (1.0 / 9007199254740992.0)].
    [a * 2^26 + b] is below [2^53], so both operations are exact and the
    result is [(a * 2^26 + b) / 2^53]. *)
Definition random (s : state) : float * state :=
  let '(x, s) := genrand_uint32 s in
  let '(y, s) := genrand_uint32 s in
  let a := Z.shiftr x 5 in
  let b := Z.shiftr y 6 in
  (PyFloat.of_scaled (a * 67108864 + b) (-53), s).

End MT.

(** ** The runtime as the programs see it

    The generator calls [hash], [random.seed] and [random.random], and nothing
    else of the runtime.  [random.seed] overwrites the whole state of the
    shared generator, so it is a function of its argument alone;
    [random.random] returns a float of [[0, 1)] and the next state. *)

Class PyRuntime := {
  rng : Type;
  py_hash : string -> Z;
  random_seed : Z -> rng;
  random_random : rng -> float * rng;
  random_in_unit : forall g, PyFloat.in_unit (random_random g).1
}.

(* ===================================================================== *)
(** * The engine: entities of the scene                                   *)
(* ===================================================================== *)

Inductive Model := cube | sphere.
Inductive Color := green | red | cyan_tint.
Inductive Collider := box_collider | sphere_collider.

(** The keyword arguments [_setup_world] and [SimpleMarioWorld.__init__]
    pass to [Entity].  A scalar [scale=1] is the uniform scale [(1, 1, 1)]. *)
Record Entity := {
  model : Model;
  color : Color;
  scale : Z * Z * Z;
  position : Z * Z * Z;
  collider : option Collider;
  double_sided : bool
}.

#[global] Instance Model_eq_dec : EqDecision Model.
Proof. solve_decision. Defined.
#[global] Instance Color_eq_dec : EqDecision Color.
Proof. solve_decision. Defined.
#[global] Instance Collider_eq_dec : EqDecision Collider.
Proof. solve_decision. Defined.
#[global] Instance Entity_eq_dec : EqDecision Entity.
Proof. solve_decision. Defined.

Definition pos_x (e : Entity) : Z := (position e).1.1.
Definition pos_y (e : Entity) : Z := (position e).1.2.
Definition pos_z (e : Entity) : Z := (position e).2.

(** The three classifications of a grid cell. *)
Inductive CellKind := Empty | Platform | Obstacle.

#[global] Instance CellKind_eq_dec : EqDecision CellKind.
Proof. solve_decision. Defined.

(* ===================================================================== *)
(** * [SimpleMarioWorld._setup_world]                                     *)
(* ===================================================================== *)

(** [range(n)] *)
Definition range (n : Z) : list Z := seqZ 0 n.

(** The float literals of [_setup_world]. *)
Definition lit_0_7 : float := S754_finite false 6305039478318694 (-53).
Definition lit_0_2 : float := S754_finite false 7205759403792794 (-55).
Definition lit_0_1 : float := S754_finite false 7205759403792794 (-56).

Section Generator.

Context {R : PyRuntime}.

(** The state outside the call that [_setup_world] reads or writes: the
    generator shared by the [random] module, and the entities of the
    scene. *)
Record World := {
  random_state : rng;
  scene : list Entity
}.

(** [random.seed(a)] *)
Definition seed (a : Z) (w : World) : World :=
  {| random_state := random_seed a; scene := scene w |}.

(** [random.random()] *)
Definition random (w : World) : float * World :=
  let '(r, g) := random_random (random_state w) in
  (r, {| random_state := g; scene := scene w |}).

(** [Entity(...)]: the new entity joins the scene. *)
Definition spawn (e : Entity) (w : World) : World :=
  {| random_state := random_state w; scene := scene w ++ [e] |}.

(** The body of the inner loop, for one [(x, z)]. *)
Definition cell_body (cell_size : Z) (p_empty p_platform : float)
    (x z : Z) (w : World) : World :=
  if (x =? 0) && (z =? 0) then w
  else
    let '(r, w) := random w in
    let pos := (x * cell_size, 0, z * cell_size) in
    if PyFloat.ltb r p_empty then w
    else if PyFloat.ltb r (PyFloat.add p_empty p_platform) then
      spawn {| model := cube; color := green;
               scale := (cell_size, 1, cell_size); position := pos;
               collider := Some box_collider; double_sided := false |} w
    else
      spawn {| model := sphere; color := red;
               scale := (1, 1, 1); position := (pos.1.1, 1, pos.2);
               collider := Some sphere_collider; double_sided := false |} w.

(** [_setup_world] with its four local constants as arguments. *)
Definition setup_world_with (grid_size cell_size : Z)
    (p_empty p_platform : float) (course_name : string) (w : World) : World :=
  let w := seed (py_hash course_name) w in
  let w := spawn {| model := cube; color := green;
                    scale := (cell_size, 1, cell_size); position := (0, 0, 0);
                    collider := Some box_collider; double_sided := false |} w in
  let w :=
    foldl (fun w x =>
             foldl (fun w z => cell_body cell_size p_empty p_platform x z w)
                   w (range grid_size))
          w (range grid_size) in
  spawn {| model := sphere; color := cyan_tint;
           scale := (80, 80, 80); position := (0, 20, 0);
           collider := None; double_sided := true |} w.

Definition _setup_world (course_name : string) (w : World) : World :=
  let grid_size := 20 in
  let cell_size := 2 in
  let p_empty := lit_0_7 in
  let p_platform := lit_0_2 in
  let p_obstacle := lit_0_1 in
  setup_world_with grid_size cell_size p_empty p_platform course_name w.

End Generator.

Arguments World : clear implicits.

(** ** What the specification says of the generator

    The specification describes the generator as a function
    [generate(levelName, gridSize, cellSize, pEmpty, pPlatform)] that returns
    cells with kinds.  [_setup_world] takes the name alone, returns nothing
    and builds the geometry itself; the definitions below read cells and kinds
    off the scene it leaves. *)

(** The classification in the words of the specification: Empty if
    [r < pEmpty]; Platform if [pEmpty <= r < pEmpty + pPlatform]; else
    Obstacle. *)
Definition classify (p_empty p_platform r : float) : CellKind :=
  if PyFloat.ltb r p_empty then Empty
  else if PyFloat.leb p_empty r && PyFloat.ltb r (PyFloat.add p_empty p_platform)
  then Platform
  else Obstacle.

(** The box of a Platform cell and the sphere of an Obstacle cell. *)
Definition platform_at (cell_size : Z) (p : Z * Z * Z) : Entity :=
  {| model := cube; color := green; scale := (cell_size, 1, cell_size);
     position := p; collider := Some box_collider; double_sided := false |}.

Definition obstacle_at (p : Z * Z * Z) : Entity :=
  {| model := sphere; color := red; scale := (1, 1, 1);
     position := p; collider := Some sphere_collider; double_sided := false |}.

Definition skybox : Entity :=
  {| model := sphere; color := cyan_tint; scale := (80, 80, 80);
     position := (0, 20, 0); collider := None; double_sided := true |}.

(** The geometry of a cell of a given kind, at the mapped world position
    [(x * cellSize, 0, z * cellSize)]; an obstacle is one unit higher. *)
Definition geometry_of (cell_size : Z) (c : Z * Z) (k : CellKind) : list Entity :=
  match k with
  | Empty => []
  | Platform => [platform_at cell_size (c.1 * cell_size, 0, c.2 * cell_size)]
  | Obstacle => [obstacle_at (c.1 * cell_size, 1, c.2 * cell_size)]
  end.

(** The collidable entities over the cell [(x, z)]. *)
Definition in_cell (cell_size x z : Z) (e : Entity) : Prop :=
  is_Some (collider e) /\ pos_x e = x * cell_size /\ pos_z e = z * cell_size.

#[global] Instance in_cell_dec cell_size x z e : Decision (in_cell cell_size x z e).
Proof. unfold in_cell. apply _. Defined.

Definition geometry_at (cell_size : Z) (ents : list Entity) (x z : Z) : list Entity :=
  filter (in_cell cell_size x z) ents.

(** The kind a cell shows: nothing, one box, or one sphere. *)
Definition kind_of_geometry (g : list Entity) : option CellKind :=
  match g with
  | [] => Some Empty
  | [e] =>
      match collider e with
      | Some box_collider => Some Platform
      | Some sphere_collider => Some Obstacle
      | None => None
      end
  | _ => None
  end.

Definition kind_at (cell_size : Z) (ents : list Entity) (x z : Z) : option CellKind :=
  kind_of_geometry (geometry_at cell_size ents x z).

(** Where the generator may put an entity: the sky sphere, the origin
    platform, or the box or the sphere of a cell of the grid. *)
Definition on_grid (grid_size cell_size : Z) (e : Entity) : Prop :=
  e = skybox \/
  e = platform_at cell_size (0, 0, 0) \/
  exists x z, 0 <= x < grid_size /\ 0 <= z < grid_size /\
    (e = platform_at cell_size (x * cell_size, 0, z * cell_size) \/
     e = obstacle_at (x * cell_size, 1, z * cell_size)).

(** The cells in the order of the two loops. *)
Definition cells (grid_size : Z) : list (Z * Z) :=
  x ← range grid_size; (fun z => (x, z)) <$> range grid_size.

Definition is_origin (c : Z * Z) : Prop := c = (0, 0).

Definition non_origin_cells (grid_size : Z) : list (Z * Z) :=
  filter (fun c => ~ is_origin c) (cells grid_size).

Section Observations.

Context {R : PyRuntime}.

(** The entities a call added to the scene. *)
Definition created (w w' : World R) : list Entity :=
  drop (length (scene w)) (scene w').

(** The generator state after [n] draws, and the draw number [k] (from 0). *)
Definition rng_after (n : nat) (g : rng) : rng :=
  Nat.iter n (fun g => (random_random g).2) g.

Definition nth_draw (g : rng) (k : nat) : float :=
  (random_random (rng_after k g)).1.

(** The generator state [random.seed(hash(course_name))] leaves. *)
Definition seeded (course_name : string) : rng :=
  random_seed (py_hash course_name).

(** The entities a call of the generator adds to the scene. *)
Definition generated (grid_size cell_size : Z) (p_empty p_platform : float)
    (course_name : string) (w : World R) : list Entity :=
  created w (setup_world_with grid_size cell_size p_empty p_platform course_name w).

(** The body of the loops as a function of the cell. *)
Definition loop_body (cell_size : Z) (p_empty p_platform : float)
    (w : World R) (c : Z * Z) : World R :=
  cell_body cell_size p_empty p_platform c.1 c.2 w.

(** The geometry of a list of cells when the [k]-th cell is classified by
    the draw number [k] of the generator state [g]. *)
Definition placed (cell_size : Z) (p_empty p_platform : float)
    (g : rng) (l : list (Z * Z)) : list Entity :=
  mjoin (imap (fun k c => geometry_of cell_size c
                            (classify p_empty p_platform (nth_draw g k))) l).

End Observations.

(* ===================================================================== *)
(** * [CourseBrowser]                                                     *)
(* ===================================================================== *)

Record Course := {
  name : string;
  stars : Z;
  requirement : string;
  acts : option Z;
  coins : option Z
}.

Inductive TextColor := yellow | white.

(** A [Text] of the browser: the course whose row it shows (the string is
    [course.to_row()]), its height on the screen, and its colour. *)
Record Text := {
  text_of : Course;
  text_y : float;
  text_color : TextColor
}.

Record CourseBrowser := {
  courses : list Course;
  items : list Text;
  scroll_index : Z;
  selected : Z;
  visible_rows : Z;
  row_height : float
}.

(** [l[i]]: a negative index counts from the end, and an index outside the
    list raises [IndexError]. *)
Definition py_getitem {A} (l : list A) (i : Z) : outcome A :=
  let i := if i <? 0 then i + Z.of_nat (length l) else i in
  if i <? 0 then Raised IndexError
  else match l !! Z.to_nat i with
       | Some a => Returned a
       | None => Raised IndexError
       end.

(** [l[start:stop]] *)
Definition slice_bound (len i : Z) : Z :=
  if i <? 0 then Z.max (i + len) 0 else Z.min i len.

Definition py_slice {A} (l : list A) (start stop : Z) : list A :=
  let len := Z.of_nat (length l) in
  let a := slice_bound len start in
  let b := slice_bound len stop in
  take (Z.to_nat (b - a)) (drop (Z.to_nat a) l).

(** Ursina's [clamp(value, floor, ceiling)] is
    [max(min(value, ceiling), floor)]. *)
Definition clamp (value floor ceiling : Z) : Z :=
  Z.max (Z.min value ceiling) floor.

Definition lit_0_4 : float := S754_finite false 7205759403792794 (-54).
Definition lit_0_05 : float := S754_finite false 7205759403792794 (-57).

Definition _refresh (b : CourseBrowser) : CourseBrowser :=
  let start := scroll_index b in
  let end_ := start + visible_rows b in
  let slice_ := py_slice (courses b) start end_ in
  let items :=
    imap (fun i course =>
            let y := PyFloat.sub lit_0_4
                       (PyFloat.mul (PyFloat.of_Z (Z.of_nat i)) (row_height b)) in
            let color_sel :=
              if start + Z.of_nat i =? selected b then yellow else white in
            {| text_of := course; text_y := y; text_color := color_sel |})
         slice_ in
  {| courses := courses b; items := items; scroll_index := scroll_index b;
     selected := selected b; visible_rows := visible_rows b;
     row_height := row_height b |}.

(** [CourseBrowser.__init__] *)
Definition CourseBrowser_init (courses : list Course) : CourseBrowser :=
  _refresh {| courses := courses; items := []; scroll_index := 0;
              selected := 0; visible_rows := 10; row_height := lit_0_05 |}.

Definition set_courses (cs : list Course) (b : CourseBrowser) : CourseBrowser :=
  _refresh {| courses := cs; items := items b; scroll_index := 0;
              selected := 0; visible_rows := visible_rows b;
              row_height := row_height b |}.

Definition scroll (amount : Z) (b : CourseBrowser) : CourseBrowser :=
  let selected := clamp (selected b + amount) 0 (Z.of_nat (length (courses b)) - 1) in
  let scroll_index :=
    if selected <? scroll_index b then selected
    else if scroll_index b + visible_rows b <=? selected
         then selected - visible_rows b + 1
         else scroll_index b in
  _refresh {| courses := courses b; items := items b;
              scroll_index := scroll_index; selected := selected;
              visible_rows := visible_rows b; row_height := row_height b |}.

Definition get_selected_course (b : CourseBrowser) : outcome Course :=
  py_getitem (courses b) (selected b).

(** The calls a client makes on the widget after constructing it. *)
Inductive browser_call :=
  | Scroll (amount : Z)
  | SetCourses (cs : list Course).

Definition browser_step (b : CourseBrowser) (c : browser_call) : CourseBrowser :=
  match c with
  | Scroll amount => scroll amount b
  | SetCourses cs => set_courses cs b
  end.

Definition supplies_courses (c : browser_call) : Prop :=
  match c with
  | Scroll _ => True
  | SetCourses cs => cs <> []
  end.

(** The invariant of the selection. *)
Definition selection_ok (b : CourseBrowser) : Prop :=
  0 <= selected b < Z.of_nat (length (courses b)) /\
  scroll_index b <= selected b < scroll_index b + visible_rows b.

(** What the widget keeps true from its construction on. *)
Definition browser_inv (b : CourseBrowser) : Prop :=
  selection_ok b /\ visible_rows b = 10.

(** The rows on the screen are those [_refresh] makes of the other
    fields. *)
Definition shown (b : CourseBrowser) : Prop := items b = items (_refresh b).

(** The window stays inside the list, and is full when the list allows. *)
Definition window_ok (b : CourseBrowser) : Prop :=
  0 <= scroll_index b <= Z.max 0 (Z.of_nat (length (courses b)) - 10).

(** A category of [n] courses. *)
Definition sample_courses (n : nat) : list Course :=
  (fun i => {| name := "Course " +:+ pretty i; stars := 7; requirement := "0";
               acts := None; coins := Some (Z.of_nat i) |}) <$> seq 0 n.

(* ===================================================================== *)
(** * The narrative slideshow ([supermarioss.py])                         *)
(* ===================================================================== *)

Definition story_lines : list string := [
  "Mario finds himself in a strange new world, seeking Power Stars.";
  "A towering fortress stands before him under the twilight sky.";
  "Enemies lurk around, but Mario presses on with determination.";
  "He navigates treacherous paths and narrow ledges with skill.";
  "At the fortress summit, a fierce Goomba King challenges Mario!";
  "Defeated, the Goomba King drops a shining Power Star at Mario's feet.";
  "With a cheer, Mario claims the Power Star, feeling stronger.";
  "A distant gate opens, revealing a new area for Mario to explore.";
  "Mario gathers 8 Red Coins hidden around the fortress grounds.";
  "The Red Coins' energy forms a Power Star above an ancient pedestal.";
  "Mario leaps high and secures the newly formed Power Star in triumph.";
  "A rumble shakes the world – Bowser's laugh echoes in the distance.";
  "Mario races through the opened gate toward Bowser's looming castle.";
  "In the grand hall, Bowser confronts Mario for a final showdown.";
  "With courage and agility, Mario overcomes Bowser's tricks and traps.";
  "Bowser yields, and the final Grand Star appears for Mario to grab."
]%string.

Definition star_trigger_indices : gset Z := {[ 5; 8; 9; 15 ]}.

(** The two module-level counters, what the three [Text] elements show,
    and whether the application still runs.  The scale animation of the star
    counter is the engine's and has no part in the state. *)
Record Story := {
  story_index : Z;
  star_count : Z;
  narrative_text : string;
  prompt_enabled : bool;
  star_text : string;
  running : bool
}.

(** [f"★: {star_count}"] *)
Definition star_label (n : Z) : string := ("★: " +:+ pretty n)%string.

(** The module-level initialisation. *)
Definition story_start : outcome Story :=
  line ← py_getitem story_lines 0;
  mret {| story_index := 0; star_count := 0; narrative_text := line;
          prompt_enabled := true; star_text := "★: 0"; running := true |}.

Definition progress_story (s : Story) : outcome Story :=
  let last := Z.of_nat (length story_lines) - 1 in
  if story_index s <? last then
    let story_index := story_index s + 1 in
    line ← py_getitem story_lines story_index;
    let '(star_count, star_text) :=
      if decide (story_index ∈ star_trigger_indices)
      then (star_count s + 1, star_label (star_count s + 1))
      else (star_count s, star_text s) in
    let prompt_enabled :=
      if story_index =? last then false else prompt_enabled s in
    mret {| story_index := story_index; star_count := star_count;
            narrative_text := line; prompt_enabled := prompt_enabled;
            star_text := star_text; running := running s |}
  else mret s.

(** [application.quit()] *)
Definition quit (s : Story) : Story :=
  {| story_index := story_index s; star_count := star_count s;
     narrative_text := narrative_text s; prompt_enabled := prompt_enabled s;
     star_text := star_text s; running := false |}.

(** The global [input(key)] handler. *)
Definition input (key : string) (s : Story) : outcome Story :=
  s ← (if decide (key = "space") then progress_story s else mret s);
  mret (if decide (key = "escape") then quit s else s).

(** A session: the module is loaded, then the keys arrive in order. *)
Definition story_session (keys : list string) : outcome Story :=
  foldl (fun o key => o ≫= input key) story_start keys.

(** [n] calls of [progress_story] from the start. *)
Definition progressed (n : nat) : outcome Story :=
  Nat.iter n (fun o => o ≫= progress_story) story_start.

(** The trigger indices at or below an index. *)
Definition triggers_upto (i : Z) : gset Z :=
  filter (fun t => t <= i) star_trigger_indices.

(** The index of the final line. *)
Definition last_line : Z := Z.of_nat (length story_lines) - 1.

(** What holds of the counters and of the text on the screen in every
    state a session reaches. *)
Definition story_inv (s : Story) : Prop :=
  0 <= story_index s <= last_line /\
  story_lines !! Z.to_nat (story_index s) = Some (narrative_text s) /\
  star_count s = Z.of_nat (size (triggers_upto (story_index s))).

(** What the screen shows beside the narrative. *)
Definition screen_inv (s : Story) : Prop :=
  prompt_enabled s = (story_index s <? last_line) /\
  star_text s = star_label (star_count s).

(* ===================================================================== *)
(** * The browser application ([starroad4k6.8.25.py])                     *)
(* ===================================================================== *)

(** ** The catalog

    The four lists of courses, as [starroad4k6.8.25.py] and
    [road4k_6.8.25.py] both carry them. *)

Definition main_courses : list Course := [
  {| name := "Bob‑omb Islands"; stars := 7; requirement := "0";
     acts := None; coins := Some 147 |};
  {| name := "Sky Land Resort"; stars := 7; requirement := "–";
     acts := None; coins := Some 156 |};
  {| name := "Piranha Plant Pond"; stars := 7; requirement := "–";
     acts := None; coins := Some 151 |};
  {| name := "Chuckya Harbor"; stars := 7; requirement := "8";
     acts := None; coins := Some 202 |};
  {| name := "Gloomy Garden"; stars := 7; requirement := "8";
     acts := None; coins := Some 139 |};
  {| name := "Colorful Coral Caverns"; stars := 7; requirement := "20";
     acts := None; coins := Some 137 |};
  {| name := "Koopa Canyon"; stars := 7; requirement := "30";
     acts := None; coins := Some 152 |};
  {| name := "Large Leaf Forest"; stars := 7; requirement := "20";
     acts := None; coins := Some 132 |};
  {| name := "Mad Musical Mess"; stars := 7; requirement := "30";
     acts := None; coins := Some 154 |};
  {| name := "Melting Snow Peaks"; stars := 7; requirement := "20";
     acts := None; coins := Some 184 |};
  {| name := "Colossal Candy Clutter"; stars := 7; requirement := "40";
     acts := None; coins := Some 211 |};
  {| name := "Cloudrail Station"; stars := 7; requirement := "–";
     acts := None; coins := Some 205 |};
  {| name := "Fatal Flame Falls"; stars := 7; requirement := "–";
     acts := None; coins := Some 152 |};
  {| name := "Bob‑omb Battle Factory"; stars := 7; requirement := "65";
     acts := None; coins := Some 165 |};
  {| name := "Starlight Runway"; stars := 7; requirement := "–";
     acts := None; coins := Some 169 |}
]%string.

Definition secret_courses : list Course := [
  {| name := "Mushroom Mountain Town"; stars := 3; requirement := "0";
     acts := None; coins := Some 68 |};
  {| name := "Creepy Cap Cave"; stars := 2; requirement := "8";
     acts := None; coins := Some 37 |};
  {| name := "Puzzle of the Vanish Cap"; stars := 1; requirement := "SR";
     acts := None; coins := Some 28 |};
  {| name := "Sandy Slide Secret"; stars := 3; requirement := "20";
     acts := None; coins := Some 85 |};
  {| name := "Windy Wing Cap Well"; stars := 2; requirement := "40";
     acts := None; coins := Some 70 |};
  {| name := "Hidden Palace Finale"; stars := 1; requirement := "120";
     acts := None; coins := Some 20 |}
]%string.

Definition boss_worlds : list Course := [
  {| name := "Bowser's Slippery Swamp"; stars := 1; requirement := "20 Stars";
     acts := None; coins := Some 90 |};
  {| name := "Bowser's Retro Remix Castle"; stars := 1; requirement := "40 Stars";
     acts := None; coins := Some 51 |};
  {| name := "Bowser's Rainbow Rumble"; stars := 1; requirement := "80 Stars";
     acts := None; coins := Some 56 |}
]%string.

Definition overworlds : list Course := [
  {| name := "Star Leap Tower Grounds"; stars := 2; requirement := "0";
     acts := None; coins := Some 4 |};
  {| name := "Star Leap Tower Interior"; stars := 0; requirement := "20 Stars";
     acts := None; coins := Some 2 |};
  {| name := "Flowpipe Sewers"; stars := 1; requirement := "–";
     acts := None; coins := Some 19 |};
  {| name := "Star Leap Tower First Floor"; stars := 0; requirement := "40 Stars";
     acts := None; coins := Some 0 |};
  {| name := "Star Road"; stars := 1; requirement := "65 Stars";
     acts := None; coins := Some 28 |};
  {| name := "Star Leap Tower Grounds (Night)"; stars := 0; requirement := "80 Stars";
     acts := None; coins := Some 0 |};
  {| name := "0‑Life Area (DEATH)"; stars := 0; requirement := "–";
     acts := None; coins := Some 0 |}
]%string.

(** ** Exceptions of the application

    Besides [IndexError], a dict subscript can raise [KeyError]. *)

Inductive py_error :=
  | Builtin (e : exn)
  | KeyError.

Inductive result (A : Type) : Type :=
  | Ok (a : A)
  | Err (e : py_error).
Arguments Ok {A} a.
Arguments Err {A} e.

#[global] Instance result_ret : MRet result := fun A a => Ok a.
#[global] Instance result_bind : MBind result := fun A B k m =>
  match m with
  | Ok a => k a
  | Err e => Err e
  end.

Definition of_outcome {A} (o : outcome A) : result A :=
  match o with
  | Returned a => Ok a
  | Raised e => Err (Builtin e)
  end.

(** [d[k]] on a dict, kept as its items in insertion order. *)
Definition dict_getitem {V} (d : list (string * V)) (k : string) : result V :=
  match list_find (fun kv => kv.1 = k) d with
  | Some (_, kv) => Ok kv.2
  | None => Err KeyError
  end.

Definition categories : list (string * list Course) := [
  ("Main Courses", main_courses);
  ("Secret Courses", secret_courses);
  ("Boss Worlds", boss_worlds);
  ("Overworlds", overworlds)
]%string.

(** [list(categories.keys())] *)
Definition category_names : list string := categories.*1.

Module StarRoad.

Inductive Mode := browser_mode | world_mode.

(** The fields of a [SimpleMarioWorld] that the key handlers read: the
    name, the text of [info], and Mario, an entity of the scene, kept as his
    place among its entities.  The world is itself an entity, without a
    model, and [info] is a [Text] of the interface: both live in the [world]
    field of the application and not among the modelled entities of the
    scene.  The camera and the velocities belong to the engine's frame loop
    ([update]) and have no part here. *)
Record SimpleMarioWorld := {
  course_name : string;
  info : string;
  mario : nat
}.

Section App.

Context {R : PyRuntime}.

(** The module-level state: [state], [current_category_index], the title,
    the widget and the prompt, the window and the application, and the part of
    the engine [_setup_world] works on. *)
Record App := {
  mode : Mode;
  world : option SimpleMarioWorld;
  current_category_index : Z;
  browser_title : string;
  title_enabled : bool;
  browser : CourseBrowser;
  browser_enabled : bool;
  prompt_enabled : bool;
  fullscreen : bool;
  running : bool;
  engine : World R
}.

(** The module-level initialisation, in a window that is full screen or
    not. *)
Definition app_start (fullscreen : bool) (engine : World R) : result App :=
  cat_name ← of_outcome (py_getitem category_names 0);
  courses ← dict_getitem categories cat_name;
  mret {| mode := browser_mode; world := None; current_category_index := 0;
          browser_title := cat_name; title_enabled := true;
          browser := CourseBrowser_init courses; browser_enabled := true;
          prompt_enabled := true; fullscreen := fullscreen; running := true;
          engine := engine |}.

(** [destroy(entity)], for the entity at a place of the scene: it leaves
    the scene. *)
Definition destroy (i : nat) (engine : World R) : World R :=
  {| random_state := random_state engine; scene := delete i (scene engine) |}.

(** [SimpleMarioWorld.__init__]: the world generates its level, writes
    [info], and then creates Mario. *)
Definition SimpleMarioWorld_init (course_name : string) (engine : World R)
    : SimpleMarioWorld * World R :=
  let engine := _setup_world course_name engine in
  let info := course_name +:+ "  |  Q: Back  R: Reload  F11: Fullscreen  ESC: Quit" in
  let mario := length (scene engine) in
  let engine :=
    spawn {| model := cube; color := red; scale := (1, 2, 1);
             position := (0, 1, 0); collider := Some box_collider;
             double_sided := false |} engine in
  ({| course_name := course_name; info := info; mario := mario |}, engine).

(** [show_browser]: [destroy(state['world'])] takes the world entity away,
    which has no entity of the scene as a child. *)
Definition show_browser (a : App) : App :=
  {| mode := browser_mode; world := None;
     current_category_index := current_category_index a;
     browser_title := browser_title a; title_enabled := true;
     browser := browser a; browser_enabled := true;
     prompt_enabled := true; fullscreen := fullscreen a; running := running a;
     engine := engine a |}.

Definition enter_course (a : App) : result App :=
  course ← of_outcome (get_selected_course (browser a));
  let '(w, engine) := SimpleMarioWorld_init (name course) (engine a) in
  mret {| mode := world_mode; world := Some w;
          current_category_index := current_category_index a;
          browser_title := browser_title a; title_enabled := false;
          browser := browser a; browser_enabled := false;
          prompt_enabled := false; fullscreen := fullscreen a;
          running := running a; engine := engine |}.

Definition with_browser (b : CourseBrowser) (a : App) : App :=
  {| mode := mode a; world := world a;
     current_category_index := current_category_index a;
     browser_title := browser_title a; title_enabled := title_enabled a;
     browser := b; browser_enabled := browser_enabled a;
     prompt_enabled := prompt_enabled a; fullscreen := fullscreen a;
     running := running a; engine := engine a |}.

(** [application.quit()] *)
Definition application_quit (a : App) : App :=
  {| mode := mode a; world := world a;
     current_category_index := current_category_index a;
     browser_title := browser_title a; title_enabled := title_enabled a;
     browser := browser a; browser_enabled := browser_enabled a;
     prompt_enabled := prompt_enabled a; fullscreen := fullscreen a;
     running := false; engine := engine a |}.

Definition toggle_fullscreen (a : App) : App :=
  {| mode := mode a; world := world a;
     current_category_index := current_category_index a;
     browser_title := browser_title a; title_enabled := title_enabled a;
     browser := browser a; browser_enabled := browser_enabled a;
     prompt_enabled := prompt_enabled a; fullscreen := negb (fullscreen a);
     running := running a; engine := engine a |}.

Definition with_engine (engine : World R) (a : App) : App :=
  {| mode := mode a; world := world a;
     current_category_index := current_category_index a;
     browser_title := browser_title a; title_enabled := title_enabled a;
     browser := browser a; browser_enabled := browser_enabled a;
     prompt_enabled := prompt_enabled a; fullscreen := fullscreen a;
     running := running a; engine := engine |}.

(** [SimpleMarioWorld._reset_mario]: Mario is put back at his start; the
    rest is the camera and the velocity. *)
Definition _reset_mario (w : SimpleMarioWorld) (a : App) : App :=
  let put_back (m : Entity) : Entity :=
    {| model := model m; color := color m; scale := scale m;
       position := (0, 1, 0); collider := collider m;
       double_sided := double_sided m |} in
  with_engine
    {| random_state := random_state (engine a);
       scene := alter put_back (mario w) (scene (engine a)) |} a.

(** [SimpleMarioWorld.quit]: [info] and Mario are destroyed, then [on_quit],
    which is [show_browser], is called. *)
Definition quit (w : SimpleMarioWorld) (a : App) : App :=
  show_browser (with_engine (destroy (mario w) (engine a)) a).

(** [SimpleMarioWorld.input] *)
Definition world_input (key : string) (w : SimpleMarioWorld) (a : App) : App :=
  if decide (key = "q") then quit w a
  else if decide (key = "r") then _reset_mario w a
  else if decide (key = "f11") then toggle_fullscreen a
  else if decide (key = "escape") then application_quit a
  else a.

(** The [tab] branch of [input]. *)
Definition next_category (a : App) : result App :=
  let index :=
    (current_category_index a + 1) `mod` Z.of_nat (length category_names) in
  cat_name ← of_outcome (py_getitem category_names index);
  courses ← dict_getitem categories cat_name;
  mret {| mode := mode a; world := world a;
          current_category_index := index;
          browser_title := cat_name; title_enabled := title_enabled a;
          browser := set_courses courses (browser a);
          browser_enabled := browser_enabled a;
          prompt_enabled := prompt_enabled a; fullscreen := fullscreen a;
          running := running a; engine := engine a |}.

(** The global [input(key)]. *)
Definition input (key : string) (a : App) : result App :=
  match mode a with
  | browser_mode =>
      if decide (key = "up arrow") then mret (with_browser (scroll (-1) (browser a)) a)
      else if decide (key = "down arrow") then mret (with_browser (scroll 1 (browser a)) a)
      else if decide (key = "tab") then next_category a
      else if decide (key = "enter") then enter_course a
      else if decide (key = "escape") then mret (application_quit a)
      else mret a
  | world_mode =>
      match world a with
      | Some w => mret (world_input key w a)
      | None => mret a
      end
  end.

(** The keys of a session, in order. *)
Definition session (fullscreen : bool) (engine : World R) (keys : list string)
    : result App :=
  foldl (fun r key => r ≫= input key) (app_start fullscreen engine) keys.

(** What holds while the browser is on the screen. *)
Definition browsing (a : App) : Prop :=
  mode a = browser_mode /\
  0 <= current_category_index a < 4 /\
  categories !! Z.to_nat (current_category_index a)
    = Some (browser_title a, courses (browser a)) /\
  browser_inv (browser a).

End App.

Arguments App : clear implicits.

End StarRoad.

(** The number of times a key occurs in a session. *)
Definition presses (key : string) (keys : list string) : nat :=
  length (filter (fun k => k = key) keys).

(* ===================================================================== *)
(** * The course list of [road4k_6.8.25.py]                               *)
(* ===================================================================== *)

Module Road4k.

(** This widget has no selection: it scrolls its window. *)
Record CourseBrowser := {
  courses : list Course;
  items : list Text;
  scroll_index : Z;
  visible_rows : Z;
  row_height : float
}.

Definition _refresh (b : CourseBrowser) : CourseBrowser :=
  let start := scroll_index b in
  let end_ := start + visible_rows b in
  let slice_ := py_slice (courses b) start end_ in
  let items :=
    imap (fun i course =>
            let y := PyFloat.sub lit_0_4
                       (PyFloat.mul (PyFloat.of_Z (Z.of_nat i)) (row_height b)) in
            {| text_of := course; text_y := y; text_color := white |})
         slice_ in
  {| courses := courses b; items := items; scroll_index := scroll_index b;
     visible_rows := visible_rows b; row_height := row_height b |}.

Definition CourseBrowser_init (courses : list Course) : CourseBrowser :=
  _refresh {| courses := courses; items := []; scroll_index := 0;
              visible_rows := 10; row_height := lit_0_05 |}.

Definition set_courses (cs : list Course) (b : CourseBrowser) : CourseBrowser :=
  _refresh {| courses := cs; items := items b; scroll_index := 0;
              visible_rows := visible_rows b; row_height := row_height b |}.

Definition scroll (amount : Z) (b : CourseBrowser) : CourseBrowser :=
  let scroll_index :=
    clamp (scroll_index b + amount) 0
          (Z.max 0 (Z.of_nat (length (courses b)) - visible_rows b)) in
  _refresh {| courses := courses b; items := items b;
              scroll_index := scroll_index;
              visible_rows := visible_rows b; row_height := row_height b |}.

Definition step (b : CourseBrowser) (c : browser_call) : CourseBrowser :=
  match c with
  | Scroll amount => scroll amount b
  | SetCourses cs => set_courses cs b
  end.

End Road4k.

(** What the list keeps true from its construction on. *)
Definition list_inv (b : Road4k.CourseBrowser) : Prop :=
  Road4k.visible_rows b = 10 /\
  0 <= Road4k.scroll_index b
    <= Z.max 0 (Z.of_nat (length (Road4k.courses b)) - 10) /\
  Road4k.items b = Road4k.items (Road4k._refresh b).

(* ===================================================================== *)
(** * The narrative game of [road1k.py]                                   *)
(* ===================================================================== *)

Module Road1k.

Definition story_text : list string := [
  "Yoshi: Mario! Bowser has found the secret to get to the Star Road, the kingdom of the Star Spirits!";
  "Yoshi: Using the power of the Power Stars, he's transporting his troops all over the Mushroom Kingdom!";
  "Yoshi: You must collect enough Power Stars to break the seal and reach the Star Road!";
  "~ You begin your adventure, leaping through paintings and pipes into new worlds... ~";
  "~ After a perilous journey through a swamp, you face... the Pernicious Piranha Plant! ~";
  "~ You defeat the foul flower! You've collected 40 Stars! ~";
  "~ Your adventure continues into a nostalgic and challenging castle in the sky... ~";
  "~ Atop the castle, you challenge the Blueberry Bully and send him flying! ~";
  "~ Victory! You've collected 80 Stars! The seal to the Star Road is weakening... ~";
  "~ With 120 Stars collected, a celestial path opens before you... ~";
  "~ You've reached the Star Road! Bowser's Sky Base floats menacingly ahead. ~";
  "~ The final battle! You face Bowser himself in a chaotic showdown among the stars... ~";
  "~ You've defeated Bowser! The Star Road is safe once more! ~";
  "Princess Peach: Oh, Mario! Thank you! You've saved the Mushroom Kingdom and the Star Spirits!";
  "Princess Peach: For your bravery, please accept this special Power Star! ~";
  "~ YOU GOT A STAR! Total Stars: 121 ~";
  "Narrator: A new challenge has appeared! A Star Replica is now hidden in each secret course...";
  "Narrator: Can you find all 130 Stars? The adventure continues! (Thanks for playing!)"
]%string.

Inductive GroundColor := lime | blue | gold.

(** The two counters of [StarRoadGame], what its three [Text] elements
    show, and the colour of the ground.  The jumps of the player and the fades
    are animations of the engine. *)
Record StarRoadGame := {
  story_index : Z;
  star_count : Z;
  narrative_text : string;
  prompt_enabled : bool;
  star_display : string;
  ground : GroundColor;
  running : bool
}.

Definition the_end : string := "The End. ROM Hack by Skelux, Fan Game by You!".

(** [StarRoadGame.__init__] *)
Definition game_start : outcome StarRoadGame :=
  line ← py_getitem story_text 0;
  mret {| story_index := 0; star_count := 0; narrative_text := line;
          prompt_enabled := true; star_display := "Stars: " +:+ pretty 0;
          ground := lime; running := true |}.

Definition update_star_count (new_count : Z) (g : StarRoadGame) : StarRoadGame :=
  {| story_index := story_index g; star_count := new_count;
     narrative_text := narrative_text g; prompt_enabled := prompt_enabled g;
     star_display := "Stars: " +:+ pretty new_count;
     ground := ground g; running := running g |}.

Definition animate_ground (c : GroundColor) (g : StarRoadGame) : StarRoadGame :=
  {| story_index := story_index g; star_count := star_count g;
     narrative_text := narrative_text g; prompt_enabled := prompt_enabled g;
     star_display := star_display g; ground := c; running := running g |}.

Definition advance_story (g : StarRoadGame) : outcome StarRoadGame :=
  let index := story_index g + 1 in
  if index <? Z.of_nat (length story_text) then
    line ← py_getitem story_text index;
    let g := {| story_index := index; star_count := star_count g;
                narrative_text := line; prompt_enabled := prompt_enabled g;
                star_display := star_display g; ground := ground g;
                running := running g |} in
    mret (if index =? 5 then update_star_count 40 g
          else if index =? 8 then update_star_count 80 g
          else if index =? 9 then animate_ground blue (update_star_count 120 g)
          else if index =? 15 then animate_ground gold (update_star_count 121 g)
          else g)
  else
    mret {| story_index := index; star_count := star_count g;
            narrative_text := the_end; prompt_enabled := false;
            star_display := star_display g; ground := ground g;
            running := running g |}.

Definition quit (g : StarRoadGame) : StarRoadGame :=
  {| story_index := story_index g; star_count := star_count g;
     narrative_text := narrative_text g; prompt_enabled := prompt_enabled g;
     star_display := star_display g; ground := ground g; running := false |}.

Definition input (key : string) (g : StarRoadGame) : outcome StarRoadGame :=
  g ← (if decide (key = "space") then advance_story g else mret g);
  mret (if decide (key = "escape") then quit g else g).

Definition session (keys : list string) : outcome StarRoadGame :=
  foldl (fun o key => o ≫= input key) game_start keys.

(** The count a story index stands for. *)
Definition stars_at (index : Z) : Z :=
  if index <? 5 then 0
  else if index <? 8 then 40
  else if index <? 9 then 80
  else if index <? 15 then 120
  else 121.

(** The text a story index stands for. *)
Definition text_at (index : Z) : option string :=
  if index <? Z.of_nat (length story_text)
  then story_text !! Z.to_nat index
  else Some the_end.

End Road1k.

(** The colour of the ground a story index stands for. *)
Definition ground_at (index : Z) : Road1k.GroundColor :=
  if index <? 9 then Road1k.lime
  else if index <? 15 then Road1k.blue
  else Road1k.gold.

(** What holds of the game in every state a session reaches. *)
Definition game_inv (g : Road1k.StarRoadGame) : Prop :=
  0 <= Road1k.story_index g /\
  Road1k.text_at (Road1k.story_index g) = Some (Road1k.narrative_text g) /\
  Road1k.prompt_enabled g
    = (Road1k.story_index g <? Z.of_nat (length Road1k.story_text)) /\
  Road1k.star_count g = Road1k.stars_at (Road1k.story_index g) /\
  Road1k.star_display g = ("Stars: " +:+ pretty (Road1k.star_count g))%string /\
  Road1k.ground g = ground_at (Road1k.story_index g).

(** A run of calls on the widget, and a run of keys in the browser. *)
Definition sample_calls : list browser_call :=
  [Scroll 1; Scroll 20; SetCourses (sample_courses 12); Scroll (-1); Scroll 7].

Definition sample_keys : list string :=
  ["down arrow"; "tab"; "down arrow"; "down arrow"; "x"; "up arrow"]%string.

(* ===================================================================== *)
(** * Properties                                                          *)
(* ===================================================================== *)

(** ** Floats *)

(** *** The literals *)

Lemma lit_0_7_nearest : PyFloat.nearest 7 10 lit_0_7.
Proof. split; [reflexivity | vm_compute; discriminate]. Qed.

Lemma lit_0_2_nearest : PyFloat.nearest 2 10 lit_0_2.
Proof. split; [reflexivity | vm_compute; discriminate]. Qed.

Lemma lit_0_1_nearest : PyFloat.nearest 1 10 lit_0_1.
Proof. split; [reflexivity | vm_compute; discriminate]. Qed.

Lemma lit_0_4_nearest : PyFloat.nearest 4 10 lit_0_4.
Proof. split; [reflexivity | vm_compute; discriminate]. Qed.

Lemma lit_0_05_nearest : PyFloat.nearest 5 100 lit_0_05.
Proof. split; [reflexivity | vm_compute; discriminate]. Qed.

(** [0.7 + 0.2] is [0.8999999999999999], one unit in the last place below
    the float [0.9]. *)
Lemma sum_0_7_0_2 :
  PyFloat.add lit_0_7 lit_0_2 = S754_finite false 8106479329266892 (-53).
Proof. reflexivity. Qed.

(** *** Comparisons *)

Lemma SFcompare_antisym (f1 f2 : float) :
  SFcompare f2 f1 = CompOpp <$> SFcompare f1 f2.
Proof.
  destruct f1 as [[]|[]| |[] m1 e1], f2 as [[]|[]| |[] m2 e2]; try reflexivity;
    simpl; rewrite (Z.compare_antisym e1 e2);
    destruct (e1 ?= e2) eqn:He; simpl; try reflexivity;
    rewrite (Pos.compare_cont_antisym m1 m2 Eq); simpl;
    destruct (Pos.compare_cont Eq m1 m2); reflexivity.
Qed.

Lemma ltb_false_leb (r p : float) :
  SFcompare r p <> None -> PyFloat.ltb r p = false -> PyFloat.leb p r = true.
Proof.
  unfold PyFloat.ltb, PyFloat.leb, SFltb, SFleb. rewrite (SFcompare_antisym r p).
  destruct (SFcompare r p) as [[]|]; simpl; congruence.
Qed.

Lemma in_unit_not_nan (r : float) : PyFloat.in_unit r -> r <> S754_nan.
Proof. intros [H _] ->. discriminate H. Qed.

Lemma compare_nan_r (r p : float) : r <> S754_nan -> SFcompare r p = None -> p = S754_nan.
Proof. destruct r as [[]|[]| |[]], p as [[]|[]| |[]]; simpl; congruence. Qed.

Lemma add_nan_l (p : float) : PyFloat.add S754_nan p = S754_nan.
Proof. reflexivity. Qed.

Lemma ltb_nan_r (r : float) : PyFloat.ltb r S754_nan = false.
Proof. destruct r as [[]|[]| |[]]; reflexivity. Qed.

(** The two tests of the loop body decide the kind the specification
    gives. *)
Lemma classify_branches (p_empty p_platform r : float) :
  PyFloat.in_unit r ->
  classify p_empty p_platform r =
    if PyFloat.ltb r p_empty then Empty
    else if PyFloat.ltb r (PyFloat.add p_empty p_platform) then Platform
    else Obstacle.
Proof.
  intros Hr. unfold classify.
  destruct (PyFloat.ltb r p_empty) eqn:Hlt; [done|].
  destruct (PyFloat.ltb r (PyFloat.add p_empty p_platform)) eqn:Hsum;
    [|by rewrite andb_false_r].
  rewrite ltb_false_leb; [done| |done].
  intros Hnone. apply compare_nan_r in Hnone; [|by apply in_unit_not_nan].
  subst p_empty. by rewrite add_nan_l, ltb_nan_r in Hsum.
Qed.

(** *** Floats that are exact multiples of [2^-53] *)

Lemma digits2_pos_iter_xO p k :
  digits2_pos (Pos.iter xO p k) = (digits2_pos p + k)%positive.
Proof.
  induction k using Pos.peano_ind.
  - simpl. lia.
  - rewrite Pos.iter_succ. simpl. rewrite IHk. lia.
Qed.

Lemma digits2_pos_upper p : Z.pos p < 2 ^ Z.pos (digits2_pos p).
Proof.
  induction p; simpl digits2_pos; rewrite ?Pos2Z.inj_succ, ?Z.pow_succ_r by lia; lia.
Qed.

Lemma digits2_pos_lower p : 2 ^ (Z.pos (digits2_pos p) - 1) <= Z.pos p.
Proof.
  induction p; simpl digits2_pos.
  - rewrite Pos2Z.inj_succ. replace (Z.succ (Z.pos (digits2_pos p)) - 1) with (Z.succ (Z.pos (digits2_pos p) - 1)) by lia.
    rewrite Z.pow_succ_r by lia. lia.
  - rewrite Pos2Z.inj_succ. replace (Z.succ (Z.pos (digits2_pos p)) - 1) with (Z.succ (Z.pos (digits2_pos p) - 1)) by lia.
    rewrite Z.pow_succ_r by lia. lia.
  - simpl. lia.
Qed.

Lemma binary_round_exact m e :
  Z.pos (digits2_pos m) = 53 -> -1074 <= e <= 971 ->
  binary_round_aux 53 1024 false (Z.pos m) e loc_Exact = S754_finite false m e.
Proof.
  intros Hd He. unfold binary_round_aux, shr_fexp, fexp, emin. simpl Zdigits2. rewrite Hd.
  replace (Z.max (53 + e - 53) (3 - 1024 - 53) - e) with 0 by lia.
  simpl. rewrite Hd.
  replace (Z.max (53 + e - 53) (3 - 1024 - 53) - e) with 0 by lia.
  simpl. change (1024 - 53) with 971. destruct (Z.leb_spec e 971); [reflexivity | lia].
Qed.

Lemma of_scaled_53 n :
  0 <= n < 2 ^ 53 -> PyFloat.in_unit (PyFloat.of_scaled n (-53)).
Proof.
  intros [Hlo Hhi]. destruct n as [|p|p]; [split; reflexivity| |lia].
  pose proof (digits2_pos_lower p) as Hl.
  assert (Hd : Z.pos (digits2_pos p) <= 53).
  { destruct (Z.le_gt_cases (Z.pos (digits2_pos p)) 53) as [|Hgt]; [done|].
    assert (2 ^ 53 <= 2 ^ (Z.pos (digits2_pos p) - 1)) by (apply Z.pow_le_mono_r; lia). lia. }
  unfold PyFloat.of_scaled, binary_normalize, binary_round, shl_align, fexp, emin, PyFloat.prec, PyFloat.emax.
  set (d := Z.pos (digits2_pos p)) in *.
  replace (Z.max (d + -53 - 53) (3 - 1024 - 53)) with (d - 106) by lia.
  destruct (d - 106 - -53) as [|q|q] eqn:Hq; [|lia|].
  - rewrite binary_round_exact by (fold d; lia). split; reflexivity.
  - rewrite binary_round_exact.
    + split; [reflexivity|]. unfold PyFloat.ltb, SFltb, PyFloat.one, SFcompare.
      destruct (Z.compare_spec (d - 106) (-52)); [lia|done|lia].
    + rewrite digits2_pos_iter_xO. fold d. lia.
    + lia.
Qed.

(** ** CPython as a runtime *)

Lemma wrap32_range x : 0 <= wrap32 x < 2 ^ 32.
Proof. unfold wrap32. apply Z.mod_pos_bound. lia. Qed.

Lemma MT_random_in_unit (s : MT.state) : PyFloat.in_unit (MT.random s).1.
Proof.
  unfold MT.random.
  destruct (MT.genrand_uint32 s) as [x s1] eqn:Hx.
  destruct (MT.genrand_uint32 s1) as [y s2] eqn:Hy. cbn [fst].
  assert (0 <= x < 2 ^ 32) as Hxr.
  { unfold MT.genrand_uint32 in Hx. injection Hx as <- _. apply wrap32_range. }
  assert (0 <= y < 2 ^ 32) as Hyr.
  { unfold MT.genrand_uint32 in Hy. injection Hy as <- _. apply wrap32_range. }
  apply of_scaled_53. rewrite !Z.shiftr_div_pow2 by lia.
  assert (0 <= x / 2 ^ 5 < 2 ^ 27) by (split; [apply Z.div_pos; lia|apply Z.div_lt_upper_bound; lia]).
  assert (0 <= y / 2 ^ 6 < 2 ^ 26) by (split; [apply Z.div_pos; lia|apply Z.div_lt_upper_bound; lia]).
  lia.
Qed.

Definition CPython (key : Z * Z) : PyRuntime :=
  {| rng := MT.state;
     py_hash := unicode_hash key;
     random_seed := MT.seed;
     random_random := MT.random;
     random_in_unit := MT_random_in_unit |}.

(** A process of CPython started with [PYTHONHASHSEED=n]. *)
Definition process (n : Z) : PyRuntime := CPython (hash_secret n).

(** A state such a process can be in when a course is entered: the shared
    generator as [random.seed(0)] leaves it, and an empty scene. *)
Definition fresh_world (n : Z) : World (process n) :=
  @Build_World (process n) (MT.seed 0) [].

(** The values CPython 3.11 prints for
    [PYTHONHASHSEED=n python3 -c 'print(hash(s))'], with [n] from 0 to 2. *)
Example hash_of_course_names :
  (fun n => py_hash (PyRuntime := process n) <$>
              ["Sky Land Resort"; "Bob‑omb Islands"; ""]%string) <$> [0; 1; 2]
  = [ [-8455847835919140478; -4117809374801945087; 0];
      [3851522334697173086; -5138039475227267878; 0];
      [8123380335719112923; -4886685007441595452; 0] ].
Proof. vm_compute. reflexivity. Qed.

(** [random.seed(0); random.random()] is [0.8444218515250481], and
    [random.seed(-8455847835919140478); random.random()] is
    [0.32607003828027403]. *)
(** The expression of [random.random()], evaluated in binary64, is the
    exact quotient: at the largest [a] and [b], and at a mixed pair. *)
Example random_expression_exact :
  Forall (fun '(a, b) =>
            PyFloat.mul
              (PyFloat.add (PyFloat.mul (PyFloat.of_Z a) (PyFloat.of_Z 67108864))
                           (PyFloat.of_Z b))
              (PyFloat.div PyFloat.one (PyFloat.of_Z 9007199254740992))
            = PyFloat.of_scaled (a * 67108864 + b) (-53))
         [(134217727, 67108863); (113336361, 1816894); (1, 0); (0, 1); (0, 0)].
Proof. repeat constructor. Qed.

Example first_draws :
  (MT.random (MT.seed 0)).1 = S754_finite false 7605875871743422 (-53) /\
  (MT.random (MT.seed (-8455847835919140478))).1
    = S754_finite false 5873955611582902 (-54).
Proof. split; vm_compute; reflexivity. Qed.


(** ** The generator *)

Section GeneratorFacts.

Context {R : PyRuntime}.

Implicit Types (w : World R) (g : rng) (c : Z * Z) (l : list (Z * Z)).

Lemma rng_after_S n g : rng_after (S n) g = rng_after n (random_random g).2.
Proof. unfold rng_after. by rewrite Nat.iter_succ_r. Qed.

Lemma nth_draw_S g k : nth_draw g (S k) = nth_draw (random_random g).2 k.
Proof. unfold nth_draw. by rewrite rng_after_S. Qed.

Lemma nth_draw_in_unit g k : PyFloat.in_unit (nth_draw g k).
Proof. apply random_in_unit. Qed.

(** *** One iteration *)

Lemma cell_body_origin cell_size p_empty p_platform w :
  cell_body cell_size p_empty p_platform 0 0 w = w.
Proof. reflexivity. Qed.

Lemma cell_body_draws cell_size p_empty p_platform x z w :
  (x, z) <> (0, 0) ->
  cell_body cell_size p_empty p_platform x z w =
    {| random_state := (random_random (random_state w)).2;
       scene := scene w ++
         geometry_of cell_size (x, z)
           (classify p_empty p_platform (random_random (random_state w)).1) |}.
Proof.
  intros Hne. unfold cell_body.
  destruct ((x =? 0) && (z =? 0)) eqn:Hxz.
  { apply andb_true_iff in Hxz as [?%Z.eqb_eq ?%Z.eqb_eq]. congruence. }
  rewrite classify_branches by apply random_in_unit.
  unfold random. destruct (random_random (random_state w)) as [r g]. simpl.
  destruct (PyFloat.ltb r p_empty); [by rewrite app_nil_r; destruct w|].
  destruct (PyFloat.ltb r (PyFloat.add p_empty p_platform)); reflexivity.
Qed.

(** *** The two loops *)

Lemma nested_loops {A} (f : A -> Z -> Z -> A) (xs zs : list Z) (a : A) :
  foldl (fun a x => foldl (fun a z => f a x z) a zs) a xs =
  foldl (fun a c => f a c.1 c.2) a (x ← xs; (fun z => (x, z)) <$> zs).
Proof.
  revert a. induction xs as [|x xs IH]; intros a; [done|].
  rewrite bind_cons, foldl_app. simpl. rewrite IH. f_equal.
  by rewrite foldl_fmap.
Qed.

Lemma loop_skips_origin cell_size p_empty p_platform l w :
  foldl (loop_body cell_size p_empty p_platform) w l =
  foldl (loop_body cell_size p_empty p_platform) w (filter (fun c => ~ is_origin c) l).
Proof.
  revert w. induction l as [|c l IH]; intros w; [done|].
  rewrite filter_cons. destruct (decide (~ is_origin c)) as [Hc|Hc]; simpl.
  - apply IH.
  - apply dec_stable in Hc. unfold is_origin in Hc. subst c.
    unfold loop_body at 2. simpl. apply IH.
Qed.

Lemma placed_cons cell_size p_empty p_platform g c l :
  placed cell_size p_empty p_platform g (c :: l) =
  geometry_of cell_size c (classify p_empty p_platform (random_random g).1)
    ++ placed cell_size p_empty p_platform (random_random g).2 l.
Proof.
  unfold placed. rewrite imap_cons. simpl. f_equal. f_equal.
  apply imap_ext. intros k c' _. simpl. by rewrite nth_draw_S.
Qed.

Lemma loop_placed cell_size p_empty p_platform l w :
  Forall (fun c => ~ is_origin c) l ->
  foldl (loop_body cell_size p_empty p_platform) w l =
    {| random_state := rng_after (length l) (random_state w);
       scene := scene w ++ placed cell_size p_empty p_platform (random_state w) l |}.
Proof.
  intros Hl. revert w. induction Hl as [|[x z] l Hc _ IH]; intros w.
  { simpl. unfold placed. simpl. rewrite app_nil_r. by destruct w. }
  cbn [foldl]. unfold loop_body at 2. cbn [fst snd].
  rewrite cell_body_draws by exact Hc. rewrite IH. cbn [random_state scene].
  rewrite length_cons, rng_after_S, placed_cons, (assoc_L (++)). reflexivity.
Qed.

(** *** The order of the cells *)

Lemma lookup_product (xs zs : list Z) i j x z :
  xs !! i = Some x -> zs !! j = Some z ->
  (x ← xs; (fun z => (x, z)) <$> zs) !! (i * length zs + j)%nat = Some (x, z).
Proof.
  revert i. induction xs as [|x' xs IH]; intros i Hx Hz; [done|].
  rewrite bind_cons. destruct i as [|i]; simpl in Hx.
  - simplify_eq. rewrite lookup_app_l by (rewrite length_fmap; by eapply lookup_lt_Some).
    rewrite list_lookup_fmap. simpl. by rewrite Hz.
  - rewrite lookup_app_r by (rewrite length_fmap; lia).
    rewrite length_fmap.
    replace (S i * length zs + j - length zs)%nat with (i * length zs + j)%nat by lia.
    by apply IH.
Qed.

Lemma cells_lookup grid_size x z :
  0 <= x < grid_size -> 0 <= z < grid_size ->
  cells grid_size !! Z.to_nat (x * grid_size + z) = Some (x, z).
Proof.
  intros Hx Hz. unfold cells, range.
  replace (Z.to_nat (x * grid_size + z))
    with (Z.to_nat x * length (seqZ 0 grid_size) + Z.to_nat z)%nat
    by (rewrite length_seqZ; nia).
  apply lookup_product; apply lookup_seqZ; lia.
Qed.

Lemma elem_of_cells grid_size x z :
  (x, z) ∈ cells grid_size <-> 0 <= x < grid_size /\ 0 <= z < grid_size.
Proof.
  unfold cells, range. rewrite list_elem_of_bind. split.
  - intros (x' & Hz & Hx). apply list_elem_of_fmap in Hz as (z' & ? & Hz).
    simplify_eq. apply elem_of_seqZ in Hx, Hz. lia.
  - intros [Hx Hz]. exists x. split; [|apply elem_of_seqZ; lia].
    apply list_elem_of_fmap. exists z. split; [done|apply elem_of_seqZ; lia].
Qed.

Lemma NoDup_cells grid_size : NoDup (cells grid_size).
Proof.
  unfold cells, range. apply NoDup_bind.
  - intros x1 x2 c _ _ H1 H2.
    apply list_elem_of_fmap in H1 as (? & -> & _).
    apply list_elem_of_fmap in H2 as (? & ? & _). by simplify_eq.
  - intros x _. apply NoDup_fmap_2; [|apply NoDup_seqZ].
    intros z1 z2 ?. by simplify_eq.
  - apply NoDup_seqZ.
Qed.

Lemma length_cells grid_size :
  length (cells grid_size) = (Z.to_nat grid_size * Z.to_nat grid_size)%nat.
Proof.
  unfold cells, range.
  assert (Hlen : forall xs zs : list Z,
    length (x ← xs; (fun z => (x, z)) <$> zs) = (length xs * length zs)%nat).
  { intros xs zs. induction xs as [|x xs IH]; [done|].
    rewrite bind_cons, length_app, length_fmap, IH. simpl. lia. }
  by rewrite Hlen, length_seqZ.
Qed.

(** The origin is the first cell, and the only one the loop skips. *)
Lemma cells_origin_first grid_size :
  0 < grid_size -> cells grid_size = (0, 0) :: non_origin_cells grid_size.
Proof.
  intros Hgs. pose proof (NoDup_cells grid_size) as Hnd.
  pose proof (cells_lookup grid_size 0 0 ltac:(lia) ltac:(lia)) as H0.
  unfold non_origin_cells. destruct (cells grid_size) as [|c l]; [done|].
  simpl in H0. simplify_eq. apply NoDup_cons in Hnd as [Hnotin _].
  rewrite filter_cons_False by (intros H; by apply H).
  f_equal. symmetry. induction l as [|c l IH]; [done|].
  apply not_elem_of_cons in Hnotin as [Hc Hl].
  rewrite filter_cons_True by (unfold is_origin; congruence).
  f_equal. by apply IH.
Qed.

Lemma non_origin_cells_Forall grid_size :
  Forall (fun c => ~ is_origin c) (non_origin_cells grid_size).
Proof.
  apply Forall_forall. intros c Hc. unfold non_origin_cells in Hc.
  by apply list_elem_of_filter in Hc as [? _].
Qed.

Lemma NoDup_non_origin_cells grid_size : NoDup (non_origin_cells grid_size).
Proof. apply NoDup_filter, NoDup_cells. Qed.

Lemma length_non_origin_cells grid_size :
  0 < grid_size ->
  length (non_origin_cells grid_size) = Z.to_nat (grid_size * grid_size - 1).
Proof.
  intros Hgs. pose proof (length_cells grid_size) as Hlen.
  rewrite cells_origin_first in Hlen by done. simpl in Hlen. nia.
Qed.

Lemma non_origin_cells_lookup grid_size x z :
  0 <= x < grid_size -> 0 <= z < grid_size -> (x, z) <> (0, 0) ->
  non_origin_cells grid_size !! Z.to_nat (x * grid_size + z - 1) = Some (x, z).
Proof.
  intros Hx Hz Hne. pose proof (cells_lookup grid_size x z Hx Hz) as Hc.
  rewrite cells_origin_first in Hc by lia.
  assert (0 < x * grid_size + z) by (destruct (decide (x = 0)); [|nia]; subst; simpl; destruct (decide (z = 0)); [congruence|lia]).
  replace (Z.to_nat (x * grid_size + z)) with (S (Z.to_nat (x * grid_size + z - 1))) in Hc by lia.
  exact Hc.
Qed.

(** *** The whole call *)

Lemma setup_world_with_eq grid_size cell_size p_empty p_platform course_name w :
  setup_world_with grid_size cell_size p_empty p_platform course_name w =
    {| random_state :=
         rng_after (length (non_origin_cells grid_size))
                   (random_seed (py_hash course_name));
       scene :=
         scene w ++
         platform_at cell_size (0, 0, 0)
           :: placed cell_size p_empty p_platform
                (random_seed (py_hash course_name)) (non_origin_cells grid_size)
           ++ [skybox] |}.
Proof.
  unfold setup_world_with.
  rewrite (nested_loops (fun w x z => cell_body cell_size p_empty p_platform x z w)).
  fold (cells grid_size).
  change (fun (a : World R) (c : Z * Z) => cell_body cell_size p_empty p_platform c.1 c.2 a)
    with (loop_body cell_size p_empty p_platform).
  rewrite loop_skips_origin. fold (non_origin_cells grid_size).
  rewrite loop_placed by apply non_origin_cells_Forall.
  unfold spawn, seed. cbn [random_state scene]. f_equal.
  rewrite <- !(assoc_L (++)). reflexivity.
Qed.

Lemma created_eq grid_size cell_size p_empty p_platform course_name w :
  created w (setup_world_with grid_size cell_size p_empty p_platform course_name w) =
    platform_at cell_size (0, 0, 0)
      :: placed cell_size p_empty p_platform
           (random_seed (py_hash course_name)) (non_origin_cells grid_size)
      ++ [skybox].
Proof.
  unfold created. rewrite setup_world_with_eq. cbn [scene].
  by rewrite drop_app_length.
Qed.

(** *** Reading a cell off the scene *)

Lemma in_cell_geometry_of cell_size c k x z e :
  cell_size <> 0 -> e ∈ geometry_of cell_size c k ->
  in_cell cell_size x z e <-> c = (x, z).
Proof.
  intros Hcs He. destruct c as [x' z'].
  assert (is_Some (collider e) /\ pos_x e = x' * cell_size /\ pos_z e = z' * cell_size)
    as (Hcol & Hx & Hz).
  { destruct k; simpl in He; [by apply elem_of_nil in He| |];
      apply list_elem_of_singleton in He; subst e; by eauto. }
  unfold in_cell. rewrite Hx, Hz. split.
  - intros (_ & ?%Z.mul_cancel_r & ?%Z.mul_cancel_r); [congruence|done..].
  - intros ?. by simplify_eq.
Qed.

Lemma geometry_at_geometry_of cell_size c k x z :
  cell_size <> 0 ->
  geometry_at cell_size (geometry_of cell_size c k) x z =
    if decide (c = (x, z)) then geometry_of cell_size c k else [].
Proof.
  intros Hcs. unfold geometry_at.
  pose proof (fun e => in_cell_geometry_of cell_size c k x z e Hcs) as Hin.
  induction (geometry_of cell_size c k) as [|e es IH].
  { by destruct (decide _). }
  rewrite filter_cons, IH by (intros e' He'; apply Hin; by right).
  specialize (Hin e (list_elem_of_here _ _)).
  destruct (decide (in_cell cell_size x z e)) as [He|He], (decide (c = (x, z)));
    try done; by apply Hin in He || (exfalso; apply He, Hin).
Qed.

Lemma geometry_at_app cell_size es1 es2 x z :
  geometry_at cell_size (es1 ++ es2) x z =
  geometry_at cell_size es1 x z ++ geometry_at cell_size es2 x z.
Proof. apply filter_app. Qed.

Lemma geometry_at_placed_outside cell_size p_empty p_platform g l x z :
  cell_size <> 0 -> (x, z) ∉ l ->
  geometry_at cell_size (placed cell_size p_empty p_platform g l) x z = [].
Proof.
  intros Hcs. revert g. induction l as [|c l IH]; intros g Hl; [done|].
  apply not_elem_of_cons in Hl as [Hc Hl].
  rewrite placed_cons, geometry_at_app, geometry_at_geometry_of, IH by done.
  by rewrite decide_False by congruence.
Qed.

Lemma geometry_at_placed cell_size p_empty p_platform g l i x z :
  cell_size <> 0 -> NoDup l -> l !! i = Some (x, z) ->
  geometry_at cell_size (placed cell_size p_empty p_platform g l) x z =
    geometry_of cell_size (x, z) (classify p_empty p_platform (nth_draw g i)).
Proof.
  intros Hcs Hnd. revert g i. induction Hnd as [|c l Hc Hnd IH]; intros g i Hi; [done|].
  rewrite placed_cons, geometry_at_app, geometry_at_geometry_of by done.
  destruct i as [|i]; simpl in Hi.
  - simplify_eq. rewrite decide_True by done.
    rewrite geometry_at_placed_outside by done. by rewrite app_nil_r.
  - rewrite decide_False.
    + rewrite nth_draw_S. by apply IH.
    + intros ->. apply Hc. by eapply list_elem_of_lookup_2.
Qed.

Lemma geometry_at_skybox cell_size x z : geometry_at cell_size [skybox] x z = [].
Proof.
  unfold geometry_at. rewrite filter_cons_False; [done|].
  intros [Hcol _]. by destruct Hcol.
Qed.

Lemma geometry_at_origin_platform cell_size x z :
  cell_size <> 0 ->
  geometry_at cell_size [platform_at cell_size (0, 0, 0)] x z =
    if decide ((0, 0) = (x, z)) then [platform_at cell_size (0, 0, 0)] else [].
Proof.
  intros Hcs. apply (geometry_at_geometry_of cell_size (0, 0) Platform x z Hcs).
Qed.

Lemma geometry_at_origin grid_size cell_size p_empty p_platform course_name w :
  cell_size <> 0 ->
  geometry_at cell_size
    (created w (setup_world_with grid_size cell_size p_empty p_platform course_name w))
    0 0 = [platform_at cell_size (0, 0, 0)].
Proof.
  intros Hcs. rewrite created_eq.
  change (?e :: ?l ++ ?k) with ([e] ++ l ++ k).
  rewrite !geometry_at_app, geometry_at_origin_platform, geometry_at_skybox by done.
  rewrite geometry_at_placed_outside; [done..|].
  intros Hin. unfold non_origin_cells in Hin.
  apply list_elem_of_filter in Hin as [Hne _]. by apply Hne.
Qed.

Lemma geometry_at_cell grid_size cell_size p_empty p_platform course_name w x z :
  cell_size <> 0 ->
  0 <= x < grid_size -> 0 <= z < grid_size -> (x, z) <> (0, 0) ->
  geometry_at cell_size
    (created w (setup_world_with grid_size cell_size p_empty p_platform course_name w))
    x z =
  geometry_of cell_size (x, z)
    (classify p_empty p_platform
       (nth_draw (random_seed (py_hash course_name))
                 (Z.to_nat (x * grid_size + z - 1)))).
Proof.
  intros Hcs Hx Hz Hne. rewrite created_eq.
  change (?e :: ?l ++ ?k) with ([e] ++ l ++ k).
  rewrite !geometry_at_app, geometry_at_origin_platform, geometry_at_skybox by done.
  rewrite decide_False by congruence. rewrite app_nil_r. simpl.
  apply geometry_at_placed; [done|apply NoDup_non_origin_cells|].
  by apply non_origin_cells_lookup.
Qed.

End GeneratorFacts.

(* ===================================================================== *)
(** * The generator as a whole                                            *)
(* ===================================================================== *)

Lemma non_origin_cells_empty grid_size :
  grid_size <= 0 -> non_origin_cells grid_size = [].
Proof.
  intros Hgs. unfold non_origin_cells, cells, range.
  destruct grid_size; try lia; reflexivity.
Qed.

(** C1, at the input where the code departs from it.  [_setup_world] seeds
    the generator with [hash(course_name)], and [hash] of a string depends on
    the hash secret of the process.  For the course "Sky Land Resort", a
    process started with [PYTHONHASHSEED=1] and one started with
    [PYTHONHASHSEED=2] compute different hashes, and the cell [(0, 2)] is a
    Platform in the first and Empty in the second, whatever the state of
    either process before the call: the layout is not the same across runs. *)
Theorem layout_differs_between_processes
    (w1 : World (process 1)) (w2 : World (process 2)) :
  py_hash (PyRuntime := process 1) "Sky Land Resort" = 3851522334697173086 /\
  py_hash (PyRuntime := process 2) "Sky Land Resort" = 8123380335719112923 /\
  kind_at 2 (created w1 (_setup_world "Sky Land Resort" w1)) 0 2 = Some Platform /\
  kind_at 2 (created w2 (_setup_world "Sky Land Resort" w2)) 0 2 = Some Empty.
Proof.
  split_and!; [vm_compute; reflexivity..| |];
    unfold kind_at, _setup_world;
    (rewrite geometry_at_cell by (lia || discriminate));
    vm_compute; reflexivity.
Qed.

(** C2.  For every level name, every grid size and probabilities, and every
    non-zero cell size, the origin cell shows exactly one platform box, at
    [(0, 0, 0)]; the iteration of the loops for [(0, 0)] leaves the world as
    it is, so it draws nothing; the generator is left as the seed and one draw
    for each of the other [gridSize^2 - 1] cells leave it; and the first draw
    after seeding classifies the next cell, [(0, 1)]. *)
Theorem origin_is_platform_without_draw {R : PyRuntime}
    (grid_size cell_size : Z) (p_empty p_platform : float)
    (course_name : string) (w : World R) :
  cell_size <> 0 ->
  kind_at cell_size
    (generated grid_size cell_size p_empty p_platform course_name w) 0 0
    = Some Platform /\
  geometry_at cell_size
    (generated grid_size cell_size p_empty p_platform course_name w) 0 0
    = [platform_at cell_size (0, 0, 0)] /\
  (forall w0 : World R, cell_body cell_size p_empty p_platform 0 0 w0 = w0) /\
  (0 < grid_size ->
   random_state
     (setup_world_with grid_size cell_size p_empty p_platform course_name w)
   = rng_after (Z.to_nat (grid_size * grid_size - 1)) (seeded course_name)) /\
  (1 < grid_size ->
   kind_at cell_size
     (generated grid_size cell_size p_empty p_platform course_name w) 0 1
   = Some (classify p_empty p_platform (nth_draw (seeded course_name) 0))).
Proof.
  intros Hcs. unfold kind_at, generated.
  rewrite geometry_at_origin by done. split_and!; [done..| |].
  - intros Hgs. rewrite setup_world_with_eq. cbn [random_state].
    by rewrite length_non_origin_cells.
  - intros Hgs. rewrite geometry_at_cell by (done || lia). unfold seeded.
    change (Z.to_nat (0 * grid_size + 1 - 1)) with 0%nat.
    by destruct (classify _ _ _).
Qed.

Lemma origin_is_platform_without_draw_witness :
  kind_at 2 (generated 20 2 lit_0_7 lit_0_2 "Bob‑omb Islands" (fresh_world 1)) 0 0
    = Some Platform /\
  geometry_at 2 (generated 20 2 lit_0_7 lit_0_2 "Bob‑omb Islands" (fresh_world 1)) 0 0
    = [platform_at 2 (0, 0, 0)] /\
  (forall w0 : World (process 1), cell_body 2 lit_0_7 lit_0_2 0 0 w0 = w0) /\
  (0 < 20 ->
   random_state (_setup_world "Bob‑omb Islands" (fresh_world 1))
   = rng_after (Z.to_nat (20 * 20 - 1)) (seeded (R := process 1) "Bob‑omb Islands")) /\
  (1 < 20 ->
   kind_at 2 (generated 20 2 lit_0_7 lit_0_2 "Bob‑omb Islands" (fresh_world 1)) 0 1
   = Some (classify lit_0_7 lit_0_2
             (nth_draw (seeded (R := process 1) "Bob‑omb Islands") 0))).
Proof.
  apply (@origin_is_platform_without_draw (process 1) 20 2 lit_0_7 lit_0_2
           "Bob‑omb Islands" (fresh_world 1)); lia.
Defined.

(** C3.  For every cell of the grid but the origin: the float that
    classifies it is a draw of the seeded generator and lies in [[0, 1)]; the
    iteration for the cell advances the generator by exactly one draw and adds
    the geometry of the kind of that draw; and the cell shows the kind that
    the specification gives the draw ([classify]: Empty below [pEmpty],
    Platform from [pEmpty] to below [pEmpty + pPlatform], Obstacle otherwise,
    the sum being the float sum the code computes). *)
Theorem cell_classified_by_one_draw {R : PyRuntime}
    (grid_size cell_size : Z) (p_empty p_platform : float)
    (course_name : string) (w : World R) (x z : Z) :
  cell_size <> 0 ->
  0 <= x < grid_size -> 0 <= z < grid_size -> (x, z) <> (0, 0) ->
  PyFloat.in_unit
    (nth_draw (seeded course_name) (Z.to_nat (x * grid_size + z - 1))) /\
  (forall w0 : World R,
     cell_body cell_size p_empty p_platform x z w0 =
       {| random_state := (random_random (random_state w0)).2;
          scene := scene w0 ++
            geometry_of cell_size (x, z)
              (classify p_empty p_platform (random_random (random_state w0)).1) |}) /\
  kind_at cell_size
    (generated grid_size cell_size p_empty p_platform course_name w) x z
    = Some (classify p_empty p_platform
              (nth_draw (seeded course_name) (Z.to_nat (x * grid_size + z - 1)))).
Proof.
  intros Hcs Hx Hz Hne. unfold generated, seeded. split_and!.
  - apply nth_draw_in_unit.
  - intros w0. by apply cell_body_draws.
  - unfold kind_at. rewrite geometry_at_cell by done.
    by destruct (classify _ _ _).
Qed.

Lemma cell_classified_by_one_draw_witness :
  PyFloat.in_unit
    (nth_draw (seeded (R := process 1) "Sky Land Resort") (Z.to_nat (0 * 20 + 2 - 1))) /\
  (forall w0 : World (process 1),
     cell_body 2 lit_0_7 lit_0_2 0 2 w0 =
       {| random_state := (random_random (random_state w0)).2;
          scene := scene w0 ++
            geometry_of 2 (0, 2)
              (classify lit_0_7 lit_0_2 (random_random (random_state w0)).1) |}) /\
  kind_at 2 (generated 20 2 lit_0_7 lit_0_2 "Sky Land Resort" (fresh_world 1)) 0 2
    = Some (classify lit_0_7 lit_0_2
              (nth_draw (seeded (R := process 1) "Sky Land Resort")
                        (Z.to_nat (0 * 20 + 2 - 1)))).
Proof.
  apply (@cell_classified_by_one_draw (process 1) 20 2 lit_0_7 lit_0_2
           "Sky Land Resort" (fresh_world 1) 0 2); [lia | lia | lia | discriminate].
Defined.

(** C4.  One generator state is threaded through both loops, [x] outside
    and [z] inside: the cell [(x, z)] with [x * gridSize + z = k + 1] is the
    [k]-th cell after the origin (from 0), and its geometry is that of draw
    number [k]; the entities the call adds are the origin platform, then the
    geometry of the cells in that order, then the sky sphere; and the
    generator ends [gridSize^2 - 1] draws after the seed. *)
Theorem draws_follow_loop_order {R : PyRuntime}
    (grid_size cell_size : Z) (p_empty p_platform : float)
    (course_name : string) (w : World R) (k : nat) (x z : Z) :
  cell_size <> 0 ->
  0 <= x < grid_size -> 0 <= z < grid_size ->
  Z.of_nat k + 1 = x * grid_size + z ->
  non_origin_cells grid_size !! k = Some (x, z) /\
  geometry_at cell_size
    (generated grid_size cell_size p_empty p_platform course_name w) x z
    = geometry_of cell_size (x, z)
        (classify p_empty p_platform (nth_draw (seeded course_name) k)) /\
  generated grid_size cell_size p_empty p_platform course_name w
    = platform_at cell_size (0, 0, 0)
        :: placed cell_size p_empty p_platform (seeded course_name)
             (non_origin_cells grid_size)
        ++ [skybox] /\
  random_state
    (setup_world_with grid_size cell_size p_empty p_platform course_name w)
    = rng_after (Z.to_nat (grid_size * grid_size - 1)) (seeded course_name).
Proof.
  intros Hcs Hx Hz Hk.
  assert (Hne : (x, z) <> (0, 0)) by (intros [= -> ->]; lia).
  replace k with (Z.to_nat (x * grid_size + z - 1)) by lia.
  unfold generated, seeded. split_and!.
  - by apply non_origin_cells_lookup.
  - by apply geometry_at_cell.
  - apply created_eq.
  - rewrite setup_world_with_eq. cbn [random_state].
    by rewrite length_non_origin_cells by lia.
Qed.

Lemma draws_follow_loop_order_witness :
  non_origin_cells 20 !! 41%nat = Some (2, 2) /\
  geometry_at 2
    (generated 20 2 lit_0_7 lit_0_2 "Sky Land Resort" (fresh_world 1)) 2 2
    = geometry_of 2 (2, 2)
        (classify lit_0_7 lit_0_2
           (nth_draw (seeded (R := process 1) "Sky Land Resort") 41)) /\
  generated 20 2 lit_0_7 lit_0_2 "Sky Land Resort" (fresh_world 1)
    = platform_at 2 (0, 0, 0)
        :: placed 2 lit_0_7 lit_0_2 (seeded (R := process 1) "Sky Land Resort")
             (non_origin_cells 20)
        ++ [skybox] /\
  random_state (_setup_world "Sky Land Resort" (fresh_world 1))
    = rng_after (Z.to_nat (20 * 20 - 1)) (seeded (R := process 1) "Sky Land Resort").
Proof.
  apply (@draws_follow_loop_order (process 1) 20 2 lit_0_7 lit_0_2
           "Sky Land Resort" (fresh_world 1) 41 2 2); lia.
Defined.

(** C5.  The iteration of the loops for the cell [(x, z)], other than the
    origin, adds to the scene nothing (Empty), or one cube with a box
    collider at [(x * cellSize, 0, z * cellSize)] (Platform), or one sphere
    with a sphere collider at [(x * cellSize, 1, z * cellSize)] (Obstacle),
    and it is the iteration number [x * gridSize + z - 1] of the loops.  The
    whole call creates the origin platform at [(0, 0, 0)], then for each
    cell in that order the entity of its kind at the position of the cell,
    then the sky; so over every cell [(x, z)] of the grid the collidable
    geometry is nothing, or that cube, or that sphere. *)
Theorem geometry_sits_on_the_grid {R : PyRuntime}
    (grid_size cell_size : Z) (p_empty p_platform : float)
    (course_name : string) (w : World R) (x z : Z) :
  cell_size <> 0 ->
  0 <= x < grid_size -> 0 <= z < grid_size ->
  ((x, z) <> (0, 0) ->
   non_origin_cells grid_size !! Z.to_nat (x * grid_size + z - 1) = Some (x, z) /\
   forall w0 : World R,
     scene (cell_body cell_size p_empty p_platform x z w0) =
       scene w0 ++
       match classify p_empty p_platform (random_random (random_state w0)).1 with
       | Empty => []
       | Platform =>
           [ {| model := cube; color := green;
                scale := (cell_size, 1, cell_size);
                position := (x * cell_size, 0, z * cell_size);
                collider := Some box_collider; double_sided := false |} ]
       | Obstacle =>
           [ {| model := sphere; color := red; scale := (1, 1, 1);
                position := (x * cell_size, 1, z * cell_size);
                collider := Some sphere_collider; double_sided := false |} ]
       end) /\
  generated grid_size cell_size p_empty p_platform course_name w =
    {| model := cube; color := green; scale := (cell_size, 1, cell_size);
       position := (0, 0, 0);
       collider := Some box_collider; double_sided := false |}
    :: mjoin
         (imap
            (fun (k : nat) (c : Z * Z) =>
               match classify p_empty p_platform
                       (nth_draw (seeded course_name) k) with
               | Empty => []
               | Platform =>
                   [ {| model := cube; color := green;
                        scale := (cell_size, 1, cell_size);
                        position := (c.1 * cell_size, 0, c.2 * cell_size);
                        collider := Some box_collider; double_sided := false |} ]
               | Obstacle =>
                   [ {| model := sphere; color := red; scale := (1, 1, 1);
                        position := (c.1 * cell_size, 1, c.2 * cell_size);
                        collider := Some sphere_collider;
                        double_sided := false |} ]
               end)
            (non_origin_cells grid_size))
    ++ [ {| model := sphere; color := cyan_tint; scale := (80, 80, 80);
            position := (0, 20, 0); collider := None; double_sided := true |} ] /\
  ((kind_at cell_size
      (generated grid_size cell_size p_empty p_platform course_name w) x z
    = Some Empty /\
    geometry_at cell_size
      (generated grid_size cell_size p_empty p_platform course_name w) x z
    = []) \/
   (kind_at cell_size
      (generated grid_size cell_size p_empty p_platform course_name w) x z
    = Some Platform /\
    geometry_at cell_size
      (generated grid_size cell_size p_empty p_platform course_name w) x z
    = [ {| model := cube; color := green;
           scale := (cell_size, 1, cell_size);
           position := (x * cell_size, 0, z * cell_size);
           collider := Some box_collider; double_sided := false |} ]) \/
   (kind_at cell_size
      (generated grid_size cell_size p_empty p_platform course_name w) x z
    = Some Obstacle /\
    geometry_at cell_size
      (generated grid_size cell_size p_empty p_platform course_name w) x z
    = [ {| model := sphere; color := red; scale := (1, 1, 1);
           position := (x * cell_size, 1, z * cell_size);
           collider := Some sphere_collider; double_sided := false |} ])).
Proof.
  intros Hcs Hx Hz. split; [|split].
  - intros Hne. split; [by apply non_origin_cells_lookup|].
    intros w0. rewrite cell_body_draws by done. cbn [scene]. f_equal.
  - unfold generated. rewrite created_eq. reflexivity.
  - unfold kind_at, generated.
    destruct (decide ((x, z) = (0, 0))) as [[= -> ->]|Hne].
    + rewrite geometry_at_origin by done. right. left. by split.
    + rewrite geometry_at_cell by done.
      destruct (classify _ _ _); [left|right; left|right; right]; by split.
Qed.

Lemma geometry_sits_on_the_grid_witness :
  ((0, 6) <> (0, 0) ->
   non_origin_cells 20 !! Z.to_nat (0 * 20 + 6 - 1) = Some (0, 6) /\
   forall w0 : World (process 1),
     scene (cell_body 2 lit_0_7 lit_0_2 0 6 w0) =
       scene w0 ++
       match classify lit_0_7 lit_0_2 (random_random (random_state w0)).1 with
       | Empty => []
       | Platform =>
           [ {| model := cube; color := green; scale := (2, 1, 2);
                position := (0 * 2, 0, 6 * 2);
                collider := Some box_collider; double_sided := false |} ]
       | Obstacle =>
           [ {| model := sphere; color := red; scale := (1, 1, 1);
                position := (0 * 2, 1, 6 * 2);
                collider := Some sphere_collider; double_sided := false |} ]
       end) /\
  generated 20 2 lit_0_7 lit_0_2 "Sky Land Resort" (fresh_world 1) =
    {| model := cube; color := green; scale := (2, 1, 2);
       position := (0, 0, 0);
       collider := Some box_collider; double_sided := false |}
    :: mjoin
         (imap
            (fun (k : nat) (c : Z * Z) =>
               match classify lit_0_7 lit_0_2
                       (nth_draw (seeded (R := process 1) "Sky Land Resort") k) with
               | Empty => []
               | Platform =>
                   [ {| model := cube; color := green; scale := (2, 1, 2);
                        position := (c.1 * 2, 0, c.2 * 2);
                        collider := Some box_collider; double_sided := false |} ]
               | Obstacle =>
                   [ {| model := sphere; color := red; scale := (1, 1, 1);
                        position := (c.1 * 2, 1, c.2 * 2);
                        collider := Some sphere_collider;
                        double_sided := false |} ]
               end)
            (non_origin_cells 20))
    ++ [ {| model := sphere; color := cyan_tint; scale := (80, 80, 80);
            position := (0, 20, 0); collider := None; double_sided := true |} ] /\
  ((kind_at 2 (generated 20 2 lit_0_7 lit_0_2 "Sky Land Resort" (fresh_world 1)) 0 6
    = Some Empty /\
    geometry_at 2 (generated 20 2 lit_0_7 lit_0_2 "Sky Land Resort" (fresh_world 1)) 0 6
    = []) \/
   (kind_at 2 (generated 20 2 lit_0_7 lit_0_2 "Sky Land Resort" (fresh_world 1)) 0 6
    = Some Platform /\
    geometry_at 2 (generated 20 2 lit_0_7 lit_0_2 "Sky Land Resort" (fresh_world 1)) 0 6
    = [ {| model := cube; color := green; scale := (2, 1, 2);
           position := (0 * 2, 0, 6 * 2);
           collider := Some box_collider; double_sided := false |} ]) \/
   (kind_at 2 (generated 20 2 lit_0_7 lit_0_2 "Sky Land Resort" (fresh_world 1)) 0 6
    = Some Obstacle /\
    geometry_at 2 (generated 20 2 lit_0_7 lit_0_2 "Sky Land Resort" (fresh_world 1)) 0 6
    = [ {| model := sphere; color := red; scale := (1, 1, 1);
           position := (0 * 2, 1, 6 * 2);
           collider := Some sphere_collider; double_sided := false |} ])).
Proof.
  apply (@geometry_sits_on_the_grid (process 1) 20 2 lit_0_7 lit_0_2
           "Sky Land Resort" (fresh_world 1) 0 6); lia.
Defined.

(** In that process the cell [(0, 6)] is an obstacle: a sphere at
    [(0, 1, 12)]. *)
Example obstacle_of_sky_land_resort :
  geometry_at 2 (generated 20 2 lit_0_7 lit_0_2 "Sky Land Resort" (fresh_world 1)) 0 6
  = [obstacle_at (0, 1, 12)].
Proof. vm_compute. reflexivity. Qed.

(** C7, as stated, fails: after [_setup_world] the generator shared by the
    [random] module is not in the state it was in, and the scene is not the
    scene it was. *)
Lemma setup_world_changes_shared_state :
  random_state (_setup_world "Sky Land Resort" (fresh_world 1))
    <> random_state (fresh_world 1) /\
  scene (_setup_world "Sky Land Resort" (fresh_world 1))
    <> scene (fresh_world 1).
Proof.
  assert (Hindex : MT.index (random_state (_setup_world "Sky Land Resort" (fresh_world 1)))
                   = 174%nat) by (vm_compute; reflexivity).
  assert (Hscene : length (scene (_setup_world "Sky Land Resort" (fresh_world 1)))
                   = 135%nat) by (vm_compute; reflexivity).
  assert (Hindex0 : MT.index (random_state (fresh_world 1)) = 624%nat)
    by (vm_compute; reflexivity).
  assert (Hscene0 : length (scene (fresh_world 1)) = 0%nat)
    by (vm_compute; reflexivity).
  split; intros H.
  - rewrite H, Hindex0 in Hindex. lia.
  - rewrite H, Hscene0 in Hscene. lia.
Qed.

(** C7, amended.  A call changes two pieces of state outside it: it
    reseeds the shared generator and leaves it 399 draws after the seed, and
    it appends the entities it creates to the scene.  Both effects are
    functions of the course name alone: the generator state before the call,
    and the scene before it, have no influence on the state the generator is
    left in nor on the entities created. *)
Theorem setup_world_effect_depends_on_name_only {R : PyRuntime}
    (course_name : string) (w1 w2 : World R) :
  random_state (_setup_world course_name w1) = rng_after 399 (seeded course_name) /\
  scene (_setup_world course_name w1)
    = scene w1 ++ created w1 (_setup_world course_name w1) /\
  random_state (_setup_world course_name w1)
    = random_state (_setup_world course_name w2) /\
  created w1 (_setup_world course_name w1)
    = created w2 (_setup_world course_name w2).
Proof.
  unfold _setup_world. rewrite !created_eq, !setup_world_with_eq.
  cbn [random_state scene].
  rewrite length_non_origin_cells by lia. split_and!; reflexivity.
Qed.

(* ===================================================================== *)
(** * The course browser                                                  *)
(* ===================================================================== *)

Lemma py_getitem_in_range {A} (l : list A) (i : Z) :
  0 <= i < Z.of_nat (length l) ->
  exists a, py_getitem l i = Returned a /\ l !! Z.to_nat i = Some a.
Proof.
  intros Hi. unfold py_getitem.
  destruct (Z.ltb_spec i 0) as [|_]; [lia|]. cbn zeta.
  destruct (Z.ltb_spec i 0) as [|_]; [lia|].
  destruct (lookup_lt_is_Some_2 l (Z.to_nat i)) as [a Ha]; [lia|].
  exists a. by rewrite Ha.
Qed.

Lemma clamp_range (value floor ceiling : Z) :
  floor <= ceiling -> floor <= clamp value floor ceiling <= ceiling.
Proof. unfold clamp. lia. Qed.

Lemma browser_inv_init (cs : list Course) :
  cs <> [] -> browser_inv (CourseBrowser_init cs).
Proof.
  intros Hcs. unfold browser_inv, selection_ok. simpl.
  destruct cs; [done|]. simpl. lia.
Qed.

Lemma browser_inv_set_courses (cs : list Course) (b : CourseBrowser) :
  cs <> [] -> browser_inv b -> browser_inv (set_courses cs b).
Proof.
  intros Hcs [_ Hrows]. unfold browser_inv, selection_ok. simpl.
  rewrite Hrows. destruct cs; [done|]. simpl. lia.
Qed.

Lemma browser_inv_scroll (amount : Z) (b : CourseBrowser) :
  browser_inv b -> browser_inv (scroll amount b).
Proof.
  intros [[Hsel _] Hrows]. unfold browser_inv, selection_ok. simpl.
  rewrite Hrows.
  pose proof (clamp_range (selected b + amount) 0
                (Z.of_nat (length (courses b)) - 1) ltac:(lia)) as Hc.
  set (s := clamp _ _ _) in *.
  destruct (Z.ltb_spec s (scroll_index b)); [lia|].
  destruct (Z.leb_spec (scroll_index b + 10) s); lia.
Qed.

Lemma browser_inv_calls (calls : list browser_call) (b : CourseBrowser) :
  Forall supplies_courses calls -> browser_inv b ->
  browser_inv (foldl browser_step b calls).
Proof.
  intros Hcalls. revert b. induction Hcalls as [|c calls Hc _ IH]; intros b Hb; [done|].
  simpl. apply IH. destruct c as [amount|cs]; simpl.
  - by apply browser_inv_scroll.
  - by apply browser_inv_set_courses.
Qed.

(** C8.  The widget is constructed on a non-empty list and then receives
    any sequence of [scroll(amount)] and [set_courses(courses)] with non-empty
    lists: afterwards [0 <= selected < len(courses)] and
    [scroll_index <= selected < scroll_index + visible_rows], and
    [get_selected_course] returns, without [IndexError], an element of the
    current list. *)
Theorem selection_stays_in_range (cs0 : list Course) (calls : list browser_call) :
  cs0 <> [] -> Forall supplies_courses calls ->
  selection_ok (foldl browser_step (CourseBrowser_init cs0) calls) /\
  exists c,
    get_selected_course (foldl browser_step (CourseBrowser_init cs0) calls)
      = Returned c /\
    c ∈ courses (foldl browser_step (CourseBrowser_init cs0) calls).
Proof.
  intros Hcs Hcalls.
  destruct (browser_inv_calls calls (CourseBrowser_init cs0) Hcalls
              (browser_inv_init cs0 Hcs)) as [Hok _].
  split; [done|]. destruct Hok as [Hsel _].
  destruct (py_getitem_in_range _ _ Hsel) as (c & Hget & Hlook).
  exists c. split; [done|]. by eapply list_elem_of_lookup_2.
Qed.

Lemma selection_stays_in_range_witness :
  selection_ok
    (foldl browser_step (CourseBrowser_init (sample_courses 15))
       [Scroll 1; Scroll 20; SetCourses (sample_courses 3); Scroll (-1); Scroll 7]) /\
  exists c,
    get_selected_course
      (foldl browser_step (CourseBrowser_init (sample_courses 15))
         [Scroll 1; Scroll 20; SetCourses (sample_courses 3); Scroll (-1); Scroll 7])
      = Returned c /\
    c ∈ courses
      (foldl browser_step (CourseBrowser_init (sample_courses 15))
         [Scroll 1; Scroll 20; SetCourses (sample_courses 3); Scroll (-1); Scroll 7]).
Proof.
  apply (selection_stays_in_range (sample_courses 15)
           [Scroll 1; Scroll 20; SetCourses (sample_courses 3); Scroll (-1); Scroll 7]).
  - discriminate.
  - repeat constructor; discriminate.
Defined.

(* ===================================================================== *)
(** * The slideshow                                                       *)
(* ===================================================================== *)

Lemma triggers_upto_succ (i : Z) :
  size (triggers_upto (i + 1)) =
    Nat.add (size (triggers_upto i))
            (if decide (i + 1 ∈ star_trigger_indices) then 1%nat else 0%nat).
Proof.
  unfold triggers_upto. destruct (decide _) as [Hin|Hnotin].
  - assert (filter (fun t => t <= i + 1) star_trigger_indices
            = filter (fun t => t <= i) star_trigger_indices ∪ {[ i + 1 ]}) as ->.
    { apply set_eq. intros t.
      rewrite elem_of_union, !elem_of_filter, elem_of_singleton.
      split.
      - intros [Hle Ht]. destruct (decide (t = i + 1)); [by right|left]. split; [lia|done].
      - intros [[Hle Ht]| ->]; (split; [lia|done]). }
    rewrite size_union, size_singleton; [done|].
    apply disjoint_singleton_r. rewrite elem_of_filter. lia.
  - rewrite Nat.add_0_r. f_equal. apply set_eq. intros t.
    rewrite !elem_of_filter. split.
    + intros [Hle Ht]. split; [|done].
      destruct (decide (t = i + 1)); [by subst|lia].
    + intros [Hle Ht]. split; [lia|done].
Qed.

Lemma triggers_upto_bound (i : Z) : (size (triggers_upto i) <= 4)%nat.
Proof.
  change 4%nat with (size star_trigger_indices).
  apply subseteq_size. unfold triggers_upto. intros t. rewrite elem_of_filter. tauto.
Qed.

Lemma story_start_inv :
  exists s, story_start = Returned s /\ story_index s = 0 /\ story_inv s.
Proof. eexists. split; [reflexivity|]. split; [reflexivity|]. by split_and!. Qed.

Lemma progress_story_spec (s : Story) :
  story_inv s ->
  exists s', progress_story s = Returned s' /\ story_inv s' /\
    story_index s' = (if story_index s <? last_line then story_index s + 1
                      else story_index s) /\
    star_count s <= star_count s' /\
    (story_index s = last_line -> s' = s).
Proof.
  intros (Hidx & Hline & Hstars). unfold progress_story. fold last_line.
  destruct (Z.ltb_spec (story_index s) last_line) as [Hlt|Hge].
  - destruct (py_getitem_in_range story_lines (story_index s + 1)) as (line & -> & Hl).
    { unfold last_line in *. lia. }
    pose proof (triggers_upto_succ (story_index s)) as Hsucc.
    simpl. destruct (decide (story_index s + 1 ∈ star_trigger_indices)) as [Hin|Hnotin];
      eexists; (split; [reflexivity|]); unfold story_inv; simpl;
      (split_and!; [lia | lia | done | lia | done | lia | lia]).
  - exists s. split_and!; [reflexivity|by unfold story_inv|reflexivity|lia|done].
Qed.

Lemma input_inv (key : string) (s : Story) :
  story_inv s -> exists s', input key s = Returned s' /\ story_inv s'.
Proof.
  intros Hs. unfold input.
  destruct (decide (key = "space")) as [->|_].
  - destruct (progress_story_spec s Hs) as (s' & -> & Hs' & _). simpl.
    eexists. split; [reflexivity|done].
  - simpl. eexists. split; [reflexivity|]. by case_decide.
Qed.

Lemma story_session_inv (keys : list string) :
  exists s, story_session keys = Returned s /\ story_inv s.
Proof.
  unfold story_session.
  destruct story_start_inv as (s0 & -> & _ & H0). revert s0 H0.
  induction keys as [|key keys IH]; intros s0 H0; [by exists s0|].
  simpl. destruct (input_inv key s0 H0) as (s1 & -> & H1). by apply IH.
Qed.

(** C9.  After any sequence of keys the session has not raised; the index
    is 0 when no key has come, it lies between 0 and [len(story_lines) - 1],
    and the text on the screen is the line of [story_lines] at the index.
    [progress_story] then returns with the index one higher when it was below
    the last, and with the state as it was when the index was the last. *)
Theorem story_index_stays_in_range (keys : list string) :
  exists s, story_session keys = Returned s /\
    (keys = [] -> story_index s = 0) /\
    0 <= story_index s <= Z.of_nat (length story_lines) - 1 /\
    story_lines !! Z.to_nat (story_index s) = Some (narrative_text s) /\
    exists s', progress_story s = Returned s' /\
      story_index s' =
        (if story_index s <? Z.of_nat (length story_lines) - 1
         then story_index s + 1 else story_index s) /\
      (story_index s = Z.of_nat (length story_lines) - 1 -> s' = s).
Proof.
  destruct (story_session_inv keys) as (s & Hs & Hinv).
  exists s. split; [done|]. split.
  { intros ->. by injection Hs as <-. }
  destruct (progress_story_spec s Hinv) as (s' & Hp & _ & Hi & _ & Hlast).
  destruct Hinv as (Hidx & Hline & _). split_and!; [apply Hidx..|done|].
  by exists s'.
Qed.

Lemma progressed_inv (n : nat) :
  exists s, progressed n = Returned s /\ story_inv s.
Proof.
  induction n as [|n (s & Hs & Hinv)].
  - destruct story_start_inv as (s0 & H0 & _ & Hinv). by exists s0.
  - unfold progressed in *. simpl. rewrite Hs.
    destruct (progress_story_spec s Hinv) as (s' & Hp & Hinv' & _). by exists s'.
Qed.

Lemma progressed_star_count_mono (n m : nat) (s s' : Story) :
  (n <= m)%nat -> progressed n = Returned s -> progressed m = Returned s' ->
  star_count s <= star_count s'.
Proof.
  intros Hnm Hn. revert s'. induction Hnm as [|m Hnm IH]; intros s' Hm.
  - rewrite Hn in Hm. injection Hm as <-. lia.
  - destruct (progressed_inv m) as (sm & Hsm & Hinv).
    specialize (IH sm Hsm).
    unfold progressed in Hm, Hsm. simpl in Hm. rewrite Hsm in Hm.
    destruct (progress_story_spec sm Hinv) as (s'' & Hp & _ & _ & Hmono & _).
    simpl in Hm. rewrite Hp in Hm. injection Hm as <-. lia.
Qed.

(** C10.  After any number of calls of [progress_story], [star_count] is
    the number of indices of [{5, 8, 9, 15}] at or below [story_index]; it is
    at most 4; and it is at most what it is after any larger number of
    calls. *)
Theorem star_count_counts_triggers (n : nat) :
  exists s, progressed n = Returned s /\
    star_count s = Z.of_nat (size (triggers_upto (story_index s))) /\
    star_count s <= 4 /\
    forall (m : nat) (s' : Story),
      (n <= m)%nat -> progressed m = Returned s' -> star_count s <= star_count s'.
Proof.
  destruct (progressed_inv n) as (s & Hs & Hinv).
  exists s. destruct Hinv as (_ & _ & Hstars). split_and!; [done..| |].
  - rewrite Hstars. pose proof (triggers_upto_bound (story_index s)). lia.
  - intros m s' Hnm Hm. by eapply progressed_star_count_mono.
Qed.

(* ===================================================================== *)
(** * The generator: what else it does                                    *)
(* ===================================================================== *)

Section MoreGeneratorFacts.

Context {R : PyRuntime}.

Lemma elem_of_placed cell_size p_empty p_platform (g : rng) (l : list (Z * Z)) e :
  e ∈ placed cell_size p_empty p_platform g l ->
  exists c k, c ∈ l /\ e ∈ geometry_of cell_size c k.
Proof.
  revert g. induction l as [|c l IH]; intros g.
  { unfold placed. simpl. by intros ?%elem_of_nil. }
  rewrite placed_cons. intros [He|He]%elem_of_app.
  - exists c, (classify p_empty p_platform (random_random g).1). split; [left|done].
  - destruct (IH _ He) as (c' & k & Hc' & Hk). exists c', k. split; [by right|done].
Qed.

Lemma length_placed cell_size p_empty p_platform (g : rng) (l : list (Z * Z)) :
  (length (placed cell_size p_empty p_platform g l) <= length l)%nat.
Proof.
  revert g. induction l as [|c l IH]; intros g; [done|].
  rewrite placed_cons, length_app. specialize (IH (random_random g).2).
  destruct (classify _ _ _); simpl; lia.
Qed.

End MoreGeneratorFacts.

(** X1. The generator never leaves the grid: every entity it adds is the sky
    sphere, the origin platform, or the platform or the obstacle of a cell
    [(x, z)] with [0 <= x, z < gridSize], at that cell's position; and it adds
    at least two entities and at most one for each cell and the sky sphere. *)
Theorem generator_stays_on_the_grid {R : PyRuntime}
    (grid_size cell_size : Z) (p_empty p_platform : float)
    (course_name : string) (w : World R) :
  Forall (on_grid grid_size cell_size)
    (generated grid_size cell_size p_empty p_platform course_name w) /\
  (2 <= length (generated grid_size cell_size p_empty p_platform course_name w)
     <= Z.to_nat (grid_size * grid_size - 1) + 2)%nat.
Proof.
  unfold generated. rewrite created_eq. split.
  - apply Forall_cons. split; [right; by left|].
    apply Forall_app. split; [|apply Forall_singleton; by left].
    apply Forall_forall. intros e He.
    apply elem_of_placed in He as ([x z] & k & Hc & Hk).
    unfold non_origin_cells in Hc. apply list_elem_of_filter in Hc as [_ Hc].
    apply elem_of_cells in Hc as [Hx Hz].
    right. right. exists x, z. split; [done|]. split; [done|].
    destruct k; simpl in Hk; [by apply elem_of_nil in Hk|left|right];
      by apply list_elem_of_singleton in Hk.
  - cbn [length]. rewrite length_app. cbn [length].
    pose proof (length_placed cell_size p_empty p_platform
                  (random_seed (py_hash course_name)) (non_origin_cells grid_size)) as Hle.
    destruct (Z.le_gt_cases grid_size 0) as [Hgs|Hgs].
    + rewrite non_origin_cells_empty in * by done. cbn [length] in Hle. lia.
    + rewrite length_non_origin_cells in Hle by lia. lia.
Qed.

(** The geometry CPython places does not depend on the hash secret once
    the generator is seeded. *)
Lemma placed_CPython (key1 key2 : Z * Z) cell_size p_empty p_platform
    (l : list (Z * Z)) (g : MT.state) :
  @placed (CPython key1) cell_size p_empty p_platform g l
  = @placed (CPython key2) cell_size p_empty p_platform g l.
Proof.
  revert g. induction l as [|c l IH]; intros g; [reflexivity|].
  rewrite (@placed_cons (CPython key1)), (@placed_cons (CPython key2)).
  change (@random_random (CPython key1) g) with (MT.random g).
  change (@random_random (CPython key2) g) with (MT.random g).
  by rewrite IH.
Qed.

(** X3. The empty name hashes to 0 under every hash secret, so its level is
    the same in every process. *)
Theorem empty_name_is_the_same_everywhere
    (key1 key2 : Z * Z) (w1 : World (CPython key1)) (w2 : World (CPython key2)) :
  py_hash (PyRuntime := CPython key1) "" = 0 /\
  created w1 (_setup_world "" w1) = created w2 (_setup_world "" w2).
Proof.
  split; [reflexivity|]. unfold _setup_world. rewrite !created_eq.
  assert (Hseed : forall key,
            @random_seed (CPython key) (@py_hash (CPython key) "") = MT.seed 0)
    by reflexivity.
  rewrite !Hseed. by rewrite (placed_CPython key1 key2).
Qed.

(** X4. [_setup_world] removes nothing: a second call adds its level to the
    entities of the first, so a course generated twice has the geometry of
    each of its cells twice. *)
Theorem levels_accumulate {R : PyRuntime}
    (first second : string) (w : World R) (x z : Z) :
  created w (_setup_world second (_setup_world first w))
    = created w (_setup_world first w) ++ created w (_setup_world second w) /\
  geometry_at 2 (created w (_setup_world first (_setup_world first w))) x z
    = geometry_at 2 (created w (_setup_world first w)) x z
      ++ geometry_at 2 (created w (_setup_world first w)) x z.
Proof.
  assert (H : forall a b : string,
    created w (_setup_world b (_setup_world a w))
    = created w (_setup_world a w) ++ created w (_setup_world b w)).
  { intros a b. unfold _setup_world, created. rewrite !setup_world_with_eq.
    cbn [scene]. rewrite <- !(assoc_L (++)), !drop_app_length. reflexivity. }
  split; [apply H|]. rewrite H. apply geometry_at_app.
Qed.

(* ===================================================================== *)
(** * The browser: what is on the screen                                  *)
(* ===================================================================== *)

Lemma length_py_slice {A} (l : list A) (s e : Z) :
  0 <= s <= e ->
  Z.of_nat (length (py_slice l s e))
    = Z.min e (Z.of_nat (length l)) - Z.min s (Z.of_nat (length l)).
Proof.
  intros Hse. unfold py_slice, slice_bound.
  destruct (Z.ltb_spec s 0), (Z.ltb_spec e 0); try lia.
  rewrite length_take, length_drop. lia.
Qed.

Lemma lookup_py_slice {A} (l : list A) (s e : Z) (i : nat) :
  0 <= s <= e ->
  py_slice l s e !! i =
    if decide (Z.of_nat i < e - s) then l !! (Z.to_nat s + i)%nat else None.
Proof.
  intros Hse. unfold py_slice, slice_bound.
  destruct (Z.ltb_spec s 0), (Z.ltb_spec e 0); try lia.
  destruct (decide (Z.of_nat i < e - s)) as [Hi|Hi].
  - destruct (decide (Z.of_nat i < Z.min e (Z.of_nat (length l)) - Z.min s (Z.of_nat (length l))))
      as [Hi'|Hi'].
    + rewrite lookup_take_lt by lia. rewrite lookup_drop. f_equal. lia.
    + rewrite lookup_take_ge by lia. symmetry. apply lookup_ge_None_2. lia.
  - apply lookup_take_ge. lia.
Qed.

Lemma browser_window_init (cs : list Course) :
  window_ok (CourseBrowser_init cs) /\ shown (CourseBrowser_init cs).
Proof. split; [unfold window_ok; simpl; lia | reflexivity]. Qed.

Lemma browser_window_step (c : browser_call) (b : CourseBrowser) :
  browser_inv b -> window_ok b ->
  window_ok (browser_step b c) /\ shown (browser_step b c).
Proof.
  intros [[Hsel Hwin] Hrows] Hw. unfold window_ok in *.
  destruct c as [amount|cs]; simpl; (split; [|reflexivity]); [|lia].
  rewrite Hrows.
  pose proof (clamp_range (selected b + amount) 0
                (Z.of_nat (length (courses b)) - 1) ltac:(lia)) as Hc.
  set (s := clamp _ _ _) in *.
  destruct (Z.ltb_spec s (scroll_index b)); [lia|].
  destruct (Z.leb_spec (scroll_index b + 10) s); lia.
Qed.

Lemma browser_window_calls (calls : list browser_call) (b : CourseBrowser) :
  Forall supplies_courses calls -> browser_inv b -> window_ok b -> shown b ->
  browser_inv (foldl browser_step b calls) /\
  window_ok (foldl browser_step b calls) /\
  shown (foldl browser_step b calls).
Proof.
  intros Hcalls. revert b.
  induction Hcalls as [|c calls Hc _ IH]; intros b Hb Hw Hs; [done|].
  simpl. destruct (browser_window_step c b Hb Hw) as [Hw' Hs'].
  apply IH; [|done..]. destruct c as [amount|cs]; simpl.
  - by apply browser_inv_scroll.
  - by apply browser_inv_set_courses.
Qed.

Lemma shown_lookup (b : CourseBrowser) (i : nat) (t : Text) :
  browser_inv b -> window_ok b -> shown b ->
  items b !! i = Some t ->
  courses b !! (Z.to_nat (scroll_index b) + i)%nat = Some (text_of t) /\
  (text_color t = yellow <-> scroll_index b + Z.of_nat i = selected b).
Proof.
  intros [_ Hrows] Hw Hs. rewrite Hs. unfold _refresh. cbn [items].
  rewrite list_lookup_imap, lookup_py_slice by (unfold window_ok in Hw; lia).
  destruct (decide _) as [Hi|Hi]; [|done].
  destruct (courses b !! _) as [c|]; [|done]. simpl. intros [= <-]. simpl.
  split; [done|].
  destruct (Z.eqb_spec (scroll_index b + Z.of_nat i) (selected b)); split; done.
Qed.

Lemma shown_length (b : CourseBrowser) :
  browser_inv b -> window_ok b -> shown b ->
  Z.of_nat (length (items b)) = Z.min 10 (Z.of_nat (length (courses b))).
Proof.
  intros [_ Hrows] Hw Hs. rewrite Hs. unfold _refresh. cbn [items].
  rewrite length_imap, length_py_slice by (unfold window_ok in Hw; lia).
  unfold window_ok in Hw. lia.
Qed.

Lemma shown_selected (b : CourseBrowser) :
  browser_inv b -> window_ok b -> shown b ->
  exists t,
    items b !! Z.to_nat (selected b - scroll_index b) = Some t /\
    text_color t = yellow /\
    get_selected_course b = Returned (text_of t).
Proof.
  intros Hb Hw Hs. pose proof Hb as [[Hsel Hwin] Hrows].
  destruct (lookup_lt_is_Some_2 (items b) (Z.to_nat (selected b - scroll_index b)))
    as [t Ht].
  { pose proof (shown_length b Hb Hw Hs). unfold window_ok in Hw. lia. }
  exists t. split; [done|].
  destruct (shown_lookup b _ t Hb Hw Hs Ht) as [Hc Hy].
  split; [apply Hy; lia|].
  destruct (py_getitem_in_range _ _ Hsel) as (c & Hget & Hlook).
  unfold get_selected_course. rewrite Hget. f_equal.
  replace (Z.to_nat (scroll_index b) + Z.to_nat (selected b - scroll_index b))%nat
    with (Z.to_nat (selected b)) in Hc by (unfold window_ok in Hw; lia).
  congruence.
Qed.

(** X5. The rows of the browser. After any calls with non-empty lists, row [i]
    on the screen shows the course at [scroll_index + i]; a row is yellow
    exactly when it is the row of [selected]; and that row is on the screen
    and shows the course [get_selected_course] returns. *)
Theorem selected_row_is_highlighted (cs0 : list Course) (calls : list browser_call) :
  cs0 <> [] -> Forall supplies_courses calls ->
  (forall (i : nat) (t : Text),
     items (foldl browser_step (CourseBrowser_init cs0) calls) !! i = Some t ->
     courses (foldl browser_step (CourseBrowser_init cs0) calls)
       !! (Z.to_nat (scroll_index (foldl browser_step (CourseBrowser_init cs0) calls)) + i)%nat
       = Some (text_of t) /\
     (text_color t = yellow <->
      scroll_index (foldl browser_step (CourseBrowser_init cs0) calls) + Z.of_nat i
        = selected (foldl browser_step (CourseBrowser_init cs0) calls))) /\
  exists t,
    items (foldl browser_step (CourseBrowser_init cs0) calls)
      !! Z.to_nat (selected (foldl browser_step (CourseBrowser_init cs0) calls)
                   - scroll_index (foldl browser_step (CourseBrowser_init cs0) calls))
      = Some t /\
    text_color t = yellow /\
    get_selected_course (foldl browser_step (CourseBrowser_init cs0) calls)
      = Returned (text_of t).
Proof.
  intros Hcs Hcalls.
  destruct (browser_window_init cs0) as [Hw0 Hs0].
  destruct (browser_window_calls calls _ Hcalls (browser_inv_init cs0 Hcs) Hw0 Hs0)
    as (Hb & Hw & Hs).
  split.
  - intros i t. by apply shown_lookup.
  - by apply shown_selected.
Qed.

Lemma selected_row_is_highlighted_witness :
  (forall (i : nat) (t : Text),
     items (foldl browser_step (CourseBrowser_init (sample_courses 15)) sample_calls) !! i = Some t ->
     courses (foldl browser_step (CourseBrowser_init (sample_courses 15)) sample_calls)
       !! (Z.to_nat (scroll_index (foldl browser_step (CourseBrowser_init (sample_courses 15)) sample_calls)) + i)%nat
       = Some (text_of t) /\
     (text_color t = yellow <->
      scroll_index (foldl browser_step (CourseBrowser_init (sample_courses 15)) sample_calls) + Z.of_nat i
        = selected (foldl browser_step (CourseBrowser_init (sample_courses 15)) sample_calls))) /\
  exists t,
    items (foldl browser_step (CourseBrowser_init (sample_courses 15)) sample_calls)
      !! Z.to_nat (selected (foldl browser_step (CourseBrowser_init (sample_courses 15)) sample_calls)
                   - scroll_index (foldl browser_step (CourseBrowser_init (sample_courses 15)) sample_calls))
      = Some t /\
    text_color t = yellow /\
    get_selected_course (foldl browser_step (CourseBrowser_init (sample_courses 15)) sample_calls)
      = Returned (text_of t).
Proof.
  apply (selected_row_is_highlighted (sample_courses 15) sample_calls).
  - discriminate.
  - repeat constructor; discriminate.
Defined.

(** X6. The window of the browser never runs past the list: after any calls
    with non-empty lists [scroll_index] is between 0 and [len - 10] (0 for a
    short list), and the screen shows 10 rows, or all the courses when there
    are fewer. *)
Theorem browser_shows_a_full_page (cs0 : list Course) (calls : list browser_call) :
  cs0 <> [] -> Forall supplies_courses calls ->
  0 <= scroll_index (foldl browser_step (CourseBrowser_init cs0) calls)
    <= Z.max 0 (Z.of_nat (length (courses (foldl browser_step (CourseBrowser_init cs0) calls))) - 10) /\
  Z.of_nat (length (items (foldl browser_step (CourseBrowser_init cs0) calls)))
    = Z.min 10 (Z.of_nat (length (courses (foldl browser_step (CourseBrowser_init cs0) calls)))).
Proof.
  intros Hcs Hcalls.
  destruct (browser_window_init cs0) as [Hw0 Hs0].
  destruct (browser_window_calls calls _ Hcalls (browser_inv_init cs0 Hcs) Hw0 Hs0)
    as (Hb & Hw & Hs).
  split; [exact Hw | by apply shown_length].
Qed.

Lemma browser_shows_a_full_page_witness :
  0 <= scroll_index (foldl browser_step (CourseBrowser_init (sample_courses 15)) sample_calls)
    <= Z.max 0 (Z.of_nat (length (courses (foldl browser_step (CourseBrowser_init (sample_courses 15)) sample_calls))) - 10) /\
  Z.of_nat (length (items (foldl browser_step (CourseBrowser_init (sample_courses 15)) sample_calls)))
    = Z.min 10 (Z.of_nat (length (courses (foldl browser_step (CourseBrowser_init (sample_courses 15)) sample_calls)))).
Proof.
  apply (browser_shows_a_full_page (sample_courses 15) sample_calls).
  - discriminate.
  - repeat constructor; discriminate.
Defined.

(** X7. On an empty list every [scroll] leaves [selected] and [scroll_index]
    at 0 and the screen empty, and [get_selected_course] raises [IndexError]. *)
Theorem empty_browser_raises (amounts : list Z) :
  selected (foldl (fun b amount => scroll amount b) (CourseBrowser_init []) amounts) = 0 /\
  scroll_index (foldl (fun b amount => scroll amount b) (CourseBrowser_init []) amounts) = 0 /\
  items (foldl (fun b amount => scroll amount b) (CourseBrowser_init []) amounts) = [] /\
  get_selected_course
    (foldl (fun b amount => scroll amount b) (CourseBrowser_init []) amounts)
    = Raised IndexError.
Proof.
  assert (H : forall b, courses b = [] -> selected b = 0 -> scroll_index b = 0 ->
                items b = [] -> visible_rows b = 10 ->
              let b' := foldl (fun b amount => scroll amount b) b amounts in
              courses b' = [] /\ selected b' = 0 /\ scroll_index b' = 0 /\ items b' = []).
  { induction amounts as [|amount amounts IH]; intros b Hc Hsel Hsc Hit Hrows; [done|].
    assert (Hcl : clamp (selected b + amount) 0
                    (Z.of_nat (length (courses b)) - 1) = 0)
      by (rewrite Hc; unfold clamp; simpl; lia).
    cbn [foldl]. apply IH; unfold scroll; rewrite Hcl, Hsc, Hrows, ?Hc; reflexivity. }
  destruct (H (CourseBrowser_init []) eq_refl eq_refl eq_refl eq_refl eq_refl)
    as (Hc & Hsel & Hsc & Hit).
  split_and!; [done..|].
  unfold get_selected_course. by rewrite Hc, Hsel.
Qed.

(** X8. Every course can be selected: from any state the calls reach,
    [scroll(i - selected)] makes course [i] the one [get_selected_course]
    returns, and puts it on the screen in yellow. *)
Theorem any_course_can_be_selected
    (cs0 : list Course) (calls : list browser_call) (i : nat) (c : Course) :
  cs0 <> [] -> Forall supplies_courses calls ->
  courses (foldl browser_step (CourseBrowser_init cs0) calls) !! i = Some c ->
  get_selected_course
    (scroll (Z.of_nat i - selected (foldl browser_step (CourseBrowser_init cs0) calls))
            (foldl browser_step (CourseBrowser_init cs0) calls))
    = Returned c /\
  exists t,
    t ∈ items
          (scroll (Z.of_nat i - selected (foldl browser_step (CourseBrowser_init cs0) calls))
                  (foldl browser_step (CourseBrowser_init cs0) calls)) /\
    text_of t = c /\ text_color t = yellow.
Proof.
  intros Hcs Hcalls Hi.
  destruct (browser_window_init cs0) as [Hw0 Hs0].
  destruct (browser_window_calls calls _ Hcalls (browser_inv_init cs0 Hcs) Hw0 Hs0)
    as (Hb & Hw & Hs).
  set (b := foldl browser_step (CourseBrowser_init cs0) calls) in *.
  set (amount := Z.of_nat i - selected b).
  pose proof (browser_inv_scroll amount b Hb) as Hb'.
  destruct (browser_window_step (Scroll amount) b Hb Hw) as [Hw' Hs'].
  simpl in Hw', Hs'.
  destruct (shown_selected _ Hb' Hw' Hs') as (t & Ht & Hy & Hget).
  assert (Hsel : selected (scroll amount b) = Z.of_nat i).
  { simpl. unfold clamp, amount. apply lookup_lt_Some in Hi. lia. }
  assert (Hc : get_selected_course (scroll amount b) = Returned c).
  { unfold get_selected_course. rewrite Hsel.
    destruct (py_getitem_in_range (courses (scroll amount b)) (Z.of_nat i))
      as (c' & Hg & Hl).
    { simpl. apply lookup_lt_Some in Hi. lia. }
    rewrite Hg. simpl in Hl. rewrite Nat2Z.id in Hl. congruence. }
  split; [done|]. exists t. split; [by eapply list_elem_of_lookup_2|].
  split; [congruence|done].
Qed.

Lemma any_course_can_be_selected_witness :
  get_selected_course
    (scroll (Z.of_nat 11 - selected (foldl browser_step (CourseBrowser_init (sample_courses 15)) sample_calls))
            (foldl browser_step (CourseBrowser_init (sample_courses 15)) sample_calls))
    = Returned {| name := "Course 11"; stars := 7; requirement := "0";
                  acts := None; coins := Some 11 |} /\
  exists t,
    t ∈ items
          (scroll (Z.of_nat 11 - selected (foldl browser_step (CourseBrowser_init (sample_courses 15)) sample_calls))
                  (foldl browser_step (CourseBrowser_init (sample_courses 15)) sample_calls)) /\
    text_of t = {| name := "Course 11"; stars := 7; requirement := "0";
                   acts := None; coins := Some 11 |} /\
    text_color t = yellow.
Proof.
  apply (any_course_can_be_selected (sample_courses 15) sample_calls 11).
  - discriminate.
  - repeat constructor; discriminate.
  - reflexivity.
Defined.

(* ===================================================================== *)
(** * The browser application                                             *)
(* ===================================================================== *)

Lemma presses_cons (key k : string) (keys : list string) :
  presses key (k :: keys) =
    ((if decide (k = key) then 1 else 0) + presses key keys)%nat.
Proof. unfold presses. rewrite filter_cons. by destruct (decide (k = key)). Qed.

Section AppFacts.

Context {R : PyRuntime}.

Implicit Types (a : StarRoad.App R).

(** Every category of the catalog can be found under its name, and has
    courses. *)
Lemma category_at (i : Z) :
  0 <= i < 4 ->
  exists cat_name cs,
    py_getitem category_names i = Returned cat_name /\
    dict_getitem categories cat_name = Ok cs /\
    categories !! Z.to_nat i = Some (cat_name, cs) /\
    cs <> [].
Proof.
  intros Hi.
  assert (i = 0 \/ i = 1 \/ i = 2 \/ i = 3) as Hcases by lia.
  destruct Hcases as [Hi'|[Hi'|[Hi'|Hi']]]; subst i;
    do 2 eexists; (split_and!; [reflexivity..|discriminate]).
Qed.

Lemma app_start_browsing fs e :
  exists a, StarRoad.app_start fs e = Ok a /\ StarRoad.browsing a /\
    StarRoad.current_category_index a = 0 /\
    StarRoad.world a = None /\ StarRoad.engine a = e.
Proof.
  eexists. split; [reflexivity|]. split_and!; [|done..].
  split; [done|]. split; [simpl; lia|]. split; [done|]. by apply browser_inv_init.
Qed.

Lemma browsing_with_browser a (b : CourseBrowser) :
  StarRoad.browsing a -> browser_inv b -> courses b = courses (StarRoad.browser a) ->
  StarRoad.browsing (StarRoad.with_browser b a).
Proof.
  intros (Hmode & Hidx & Hcat & _) Hb Hc. unfold StarRoad.browsing. simpl.
  rewrite Hc. tauto.
Qed.

Lemma input_browsing (key : string) a :
  key <> "enter" -> StarRoad.browsing a ->
  exists a', StarRoad.input key a = Ok a' /\ StarRoad.browsing a' /\
    StarRoad.current_category_index a' =
      (StarRoad.current_category_index a + (if decide (key = "tab") then 1 else 0))
        `mod` 4 /\
    StarRoad.world a' = StarRoad.world a /\
    StarRoad.engine a' = StarRoad.engine a.
Proof.
  intros Hkey Ha. pose proof Ha as (Hmode & Hidx & Hcat & Hinv).
  assert (Hsame : StarRoad.current_category_index a
                  = (StarRoad.current_category_index a + 0) `mod` 4)
    by (rewrite Z.add_0_r, Z.mod_small; lia).
  unfold StarRoad.input. rewrite Hmode.
  destruct (decide (key = "up arrow")) as [->|Hup].
  { eexists. split; [reflexivity|]. rewrite decide_False by done.
    split; [|by split].
    apply browsing_with_browser; [done|by apply browser_inv_scroll|done]. }
  destruct (decide (key = "down arrow")) as [->|Hdown].
  { eexists. split; [reflexivity|]. rewrite decide_False by done.
    split; [|by split].
    apply browsing_with_browser; [done|by apply browser_inv_scroll|done]. }
  destruct (decide (key = "tab")) as [->|Htab].
  { unfold StarRoad.next_category.
    change (Z.of_nat (length category_names)) with 4.
    destruct (category_at ((StarRoad.current_category_index a + 1) `mod` 4))
      as (cat_name & cs & -> & Hcs & Hlook & Hne).
    { apply Z.mod_pos_bound. lia. }
    simpl. rewrite Hcs. simpl. eexists. split; [reflexivity|].
    split; [|by split].
    unfold StarRoad.browsing. simpl. split; [done|].
    split; [apply Z.mod_pos_bound; lia|]. split; [done|].
    by apply browser_inv_set_courses. }
  rewrite decide_False by done.
  destruct (decide (key = "escape")) as [->|Hesc].
  { eexists. split; [reflexivity|]. by split. }
  exists a. by split.
Qed.

Lemma run_browsing (keys : list string) a :
  "enter" ∉ keys -> StarRoad.browsing a ->
  exists a', foldl (fun r key => r ≫= StarRoad.input key) (Ok a) keys = Ok a' /\
    StarRoad.browsing a' /\
    StarRoad.current_category_index a' =
      (StarRoad.current_category_index a + Z.of_nat (presses "tab" keys)) `mod` 4 /\
    StarRoad.world a' = StarRoad.world a /\
    StarRoad.engine a' = StarRoad.engine a.
Proof.
  revert a. induction keys as [|key keys IH]; intros a Hkeys Ha.
  - exists a. split; [done|]. split; [done|]. split; [|done].
    destruct Ha as (_ & Hidx & _). unfold presses. simpl.
    rewrite Z.add_0_r, Z.mod_small; lia.
  - apply not_elem_of_cons in Hkeys as [Hkey Hkeys].
    destruct (input_browsing key a (not_eq_sym Hkey) Ha)
      as (a1 & H1 & Ha1 & Hi1 & Hw1 & He1).
    destruct (IH a1 Hkeys Ha1) as (a' & Ha' & Hb' & Hi' & Hw' & He').
    exists a'. simpl. rewrite H1. split; [done|]. split; [done|].
    split; [|split; congruence].
    rewrite Hi', Hi1, presses_cons.
    rewrite Zplus_mod_idemp_l. f_equal. destruct (decide (key = "tab")); lia.
Qed.

End AppFacts.

Lemma sample_keys_browse : "enter" ∉ sample_keys.
Proof.
  unfold sample_keys. rewrite !not_elem_of_cons. split_and!; try discriminate.
  apply not_elem_of_nil.
Qed.

(** X9. While no [enter] comes, the application stays in the browser and
    raises nothing: the category index is the number of presses of [tab]
    modulo 4, the title and the list of the widget are the name and the
    courses of that category, the selection is in range, and neither a world
    nor the engine state is touched. *)
Theorem browsing_session_is_consistent {R : PyRuntime}
    (fs : bool) (e : World R) (keys : list string) :
  "enter" ∉ keys ->
  exists a, StarRoad.session fs e keys = Ok a /\
    StarRoad.mode a = StarRoad.browser_mode /\
    StarRoad.current_category_index a = Z.of_nat (presses "tab" keys) `mod` 4 /\
    categories !! Z.to_nat (StarRoad.current_category_index a)
      = Some (StarRoad.browser_title a, courses (StarRoad.browser a)) /\
    selection_ok (StarRoad.browser a) /\
    StarRoad.world a = None /\
    StarRoad.engine a = e.
Proof.
  intros Hkeys.
  destruct (app_start_browsing fs e) as (a0 & H0 & Ha0 & Hi0 & Hw0 & He0).
  destruct (run_browsing keys a0 Hkeys Ha0) as (a & Ha & Hb & Hi & Hw & He).
  exists a. unfold StarRoad.session. rewrite H0, Ha.
  destruct Hb as (Hmode & _ & Hcat & [Hsel _]).
  split; [done|]. split; [done|]. split; [by rewrite Hi, Hi0|].
  split; [done|]. split; [done|]. split; congruence.
Qed.

Lemma browsing_session_is_consistent_witness :
  exists a, StarRoad.session false (fresh_world 1) sample_keys = Ok a /\
    StarRoad.mode a = StarRoad.browser_mode /\
    StarRoad.current_category_index a = Z.of_nat (presses "tab" sample_keys) `mod` 4 /\
    categories !! Z.to_nat (StarRoad.current_category_index a)
      = Some (StarRoad.browser_title a, courses (StarRoad.browser a)) /\
    selection_ok (StarRoad.browser a) /\
    StarRoad.world a = None /\
    StarRoad.engine a = fresh_world 1.
Proof.
  apply (@browsing_session_is_consistent (process 1) false (fresh_world 1) sample_keys).
  apply sample_keys_browse.
Defined.

(** X10. [enter] after any browsing raises nothing: it enters the course
    [get_selected_course] returns, which is a course of the category on the
    screen, generates its level with [_setup_world] on the engine state as it
    was at the start, then creates Mario, a red cube of scale [(1, 2, 1)]
    with a box collider at [(0, 1, 0)], as the last entity of the scene, and
    leaves the widget as it is. *)
Theorem enter_generates_the_selected_course {R : PyRuntime}
    (fs : bool) (e : World R) (keys : list string) :
  "enter" ∉ keys ->
  exists a c a',
    StarRoad.session fs e keys = Ok a /\
    get_selected_course (StarRoad.browser a) = Returned c /\
    (exists cat_name cs,
       categories !! Z.to_nat (StarRoad.current_category_index a)
         = Some (cat_name, cs) /\ c ∈ cs) /\
    StarRoad.session fs e (keys ++ ["enter"]) = Ok a' /\
    StarRoad.mode a' = StarRoad.world_mode /\
    StarRoad.course_name <$> StarRoad.world a' = Some (name c) /\
    StarRoad.mario <$> StarRoad.world a'
      = Some (length (scene (_setup_world (name c) e))) /\
    random_state (StarRoad.engine a') = random_state (_setup_world (name c) e) /\
    scene (StarRoad.engine a') =
      scene (_setup_world (name c) e)
      ++ [ {| model := cube; color := red; scale := (1, 2, 1);
              position := (0, 1, 0); collider := Some box_collider;
              double_sided := false |} ] /\
    StarRoad.browser a' = StarRoad.browser a.
Proof.
  intros Hkeys.
  destruct (app_start_browsing fs e) as (a0 & H0 & Ha0 & Hi0 & Hw0 & He0).
  destruct (run_browsing keys a0 Hkeys Ha0) as (a & Ha & Hb & Hi & Hw & He).
  destruct Hb as (Hmode & _ & Hcat & [[Hsel _] _]).
  destruct (py_getitem_in_range _ _ Hsel) as (c & Hget & Hlook).
  exists a, c. eexists.
  unfold StarRoad.session. rewrite foldl_app, H0, Ha.
  split; [done|]. split; [exact Hget|].
  split; [do 2 eexists; split; [exact Hcat|]; by eapply list_elem_of_lookup_2|].
  split.
  { simpl. unfold StarRoad.input. rewrite Hmode.
    rewrite !decide_False by done. rewrite decide_True by done.
    unfold StarRoad.enter_course, get_selected_course. rewrite Hget. reflexivity. }
  unfold StarRoad.SimpleMarioWorld_init.
  cbn [StarRoad.mode StarRoad.world StarRoad.engine StarRoad.browser
       fmap option_fmap option_map
       StarRoad.course_name StarRoad.mario spawn random_state scene].
  rewrite He, He0.
  split; [reflexivity|]. split; [reflexivity|]. split; [reflexivity|].
  split; [reflexivity|]. split; reflexivity.
Qed.

Lemma enter_generates_the_selected_course_witness :
  exists a c a',
    StarRoad.session false (fresh_world 1) sample_keys = Ok a /\
    get_selected_course (StarRoad.browser a) = Returned c /\
    (exists cat_name cs,
       categories !! Z.to_nat (StarRoad.current_category_index a)
         = Some (cat_name, cs) /\ c ∈ cs) /\
    StarRoad.session false (fresh_world 1) (sample_keys ++ ["enter"]) = Ok a' /\
    StarRoad.mode a' = StarRoad.world_mode /\
    StarRoad.course_name <$> StarRoad.world a' = Some (name c) /\
    StarRoad.mario <$> StarRoad.world a'
      = Some (length (scene (_setup_world (name c) (fresh_world 1)))) /\
    random_state (StarRoad.engine a')
      = random_state (_setup_world (name c) (fresh_world 1)) /\
    scene (StarRoad.engine a') =
      scene (_setup_world (name c) (fresh_world 1))
      ++ [ {| model := cube; color := red; scale := (1, 2, 1);
              position := (0, 1, 0); collider := Some box_collider;
              double_sided := false |} ] /\
    StarRoad.browser a' = StarRoad.browser a.
Proof.
  apply (@enter_generates_the_selected_course (process 1) false (fresh_world 1) sample_keys).
  apply sample_keys_browse.
Defined.

(* ===================================================================== *)
(** * The course list of road4k                                           *)
(* ===================================================================== *)

Lemma list_inv_init (cs : list Course) : list_inv (Road4k.CourseBrowser_init cs).
Proof. unfold list_inv. simpl. split_and!; [done|lia|lia|done]. Qed.

Lemma list_inv_step (c : browser_call) (b : Road4k.CourseBrowser) :
  list_inv b -> list_inv (Road4k.step b c).
Proof.
  intros (Hrows & Hidx & _). unfold list_inv.
  destruct c as [amount|cs]; simpl; rewrite ?Hrows.
  - split_and!; [done| | |done].
    all: pose proof (clamp_range (Road4k.scroll_index b + amount) 0
           (Z.max 0 (Z.of_nat (length (Road4k.courses b)) - 10)) ltac:(lia)); lia.
  - split_and!; [done|lia|lia|done].
Qed.

Lemma list_inv_calls (calls : list browser_call) (b : Road4k.CourseBrowser) :
  list_inv b -> list_inv (foldl Road4k.step b calls).
Proof.
  revert b. induction calls as [|c calls IH]; intros b Hb; [done|].
  simpl. by apply IH, list_inv_step.
Qed.

Lemma list_rows (b : Road4k.CourseBrowser) (i : nat) :
  list_inv b ->
  text_of <$> Road4k.items b !! i =
    if decide (Z.of_nat i < 10)
    then Road4k.courses b !! (Z.to_nat (Road4k.scroll_index b) + i)%nat
    else None.
Proof.
  intros (Hrows & Hidx & ->). unfold Road4k._refresh. cbn [Road4k.items].
  rewrite list_lookup_imap, lookup_py_slice by lia. rewrite Hrows.
  replace (Road4k.scroll_index b + 10 - Road4k.scroll_index b) with 10 by lia.
  destruct (decide _); [|done]. by destruct (_ !! _).
Qed.

Lemma list_length (b : Road4k.CourseBrowser) :
  list_inv b ->
  Z.of_nat (length (Road4k.items b))
    = Z.min 10 (Z.of_nat (length (Road4k.courses b))).
Proof.
  intros (Hrows & Hidx & ->). unfold Road4k._refresh. cbn [Road4k.items].
  rewrite length_imap, length_py_slice by lia. lia.
Qed.

(** X11. The list of [road4k_6.8.25.py], after any calls and any lists, empty
    ones too: [scroll_index] is between 0 and [len - 10] (0 for a short list),
    the screen shows 10 rows or all the courses when there are fewer, and row
    [i] shows the course at [scroll_index + i]. *)
Theorem road4k_window_stays_on_the_list (cs0 : list Course) (calls : list browser_call) :
  0 <= Road4k.scroll_index (foldl Road4k.step (Road4k.CourseBrowser_init cs0) calls)
    <= Z.max 0
         (Z.of_nat (length (Road4k.courses
                              (foldl Road4k.step (Road4k.CourseBrowser_init cs0) calls)))
          - 10) /\
  Z.of_nat (length (Road4k.items (foldl Road4k.step (Road4k.CourseBrowser_init cs0) calls)))
    = Z.min 10
        (Z.of_nat (length (Road4k.courses
                             (foldl Road4k.step (Road4k.CourseBrowser_init cs0) calls)))) /\
  forall i : nat,
    text_of <$> Road4k.items (foldl Road4k.step (Road4k.CourseBrowser_init cs0) calls) !! i
    = if decide (Z.of_nat i < 10)
      then Road4k.courses (foldl Road4k.step (Road4k.CourseBrowser_init cs0) calls)
             !! (Z.to_nat (Road4k.scroll_index
                             (foldl Road4k.step (Road4k.CourseBrowser_init cs0) calls))
                 + i)%nat
      else None.
Proof.
  pose proof (list_inv_calls calls _ (list_inv_init cs0)) as Hinv.
  split; [apply Hinv|]. split; [by apply list_length|].
  intros i. by apply list_rows.
Qed.

(** X12. In [road4k_6.8.25.py] every course can be brought on the screen:
    [scroll(i - scroll_index)] shows course [i]. *)
Theorem road4k_every_course_can_be_shown
    (cs0 : list Course) (calls : list browser_call) (i : nat) (c : Course) :
  Road4k.courses (foldl Road4k.step (Road4k.CourseBrowser_init cs0) calls) !! i = Some c ->
  exists t,
    t ∈ Road4k.items
          (Road4k.scroll
             (Z.of_nat i
              - Road4k.scroll_index (foldl Road4k.step (Road4k.CourseBrowser_init cs0) calls))
             (foldl Road4k.step (Road4k.CourseBrowser_init cs0) calls)) /\
    text_of t = c.
Proof.
  intros Hi.
  pose proof (list_inv_calls calls _ (list_inv_init cs0)) as Hinv.
  set (b := foldl Road4k.step (Road4k.CourseBrowser_init cs0) calls) in *.
  set (amount := Z.of_nat i - Road4k.scroll_index b).
  pose proof (list_inv_step (Scroll amount) b Hinv) as Hinv'. simpl in Hinv'.
  pose proof Hinv as (Hrows & Hidx & _).
  apply lookup_lt_Some in Hi as Hlen.
  assert (Hs : Road4k.scroll_index (Road4k.scroll amount b)
               = Z.min (Z.of_nat i) (Z.max 0 (Z.of_nat (length (Road4k.courses b)) - 10))).
  { simpl. rewrite Hrows. unfold clamp, amount. lia. }
  pose proof (list_rows (Road4k.scroll amount b)
                (i - Z.to_nat (Road4k.scroll_index (Road4k.scroll amount b))) Hinv') as Hrow.
  rewrite decide_True in Hrow by lia.
  replace (Z.to_nat (Road4k.scroll_index (Road4k.scroll amount b))
           + (i - Z.to_nat (Road4k.scroll_index (Road4k.scroll amount b))))%nat
    with i in Hrow by lia.
  change (Road4k.courses (Road4k.scroll amount b)) with (Road4k.courses b) in Hrow.
  rewrite Hi in Hrow.
  destruct (Road4k.items (Road4k.scroll amount b) !! _) as [t|] eqn:Ht; [|done].
  exists t. split; [by eapply list_elem_of_lookup_2|]. by injection Hrow.
Qed.

Lemma road4k_every_course_can_be_shown_witness :
  exists t,
    t ∈ Road4k.items
          (Road4k.scroll
             (Z.of_nat 1
              - Road4k.scroll_index (foldl Road4k.step (Road4k.CourseBrowser_init main_courses) [Scroll 1; Scroll 20; SetCourses secret_courses]))
             (foldl Road4k.step (Road4k.CourseBrowser_init main_courses) [Scroll 1; Scroll 20; SetCourses secret_courses])) /\
    text_of t = {| name := "Creepy Cap Cave"; stars := 2; requirement := "8";
                   acts := None; coins := Some 37 |}.
Proof.
  apply (road4k_every_course_can_be_shown main_courses
           [Scroll 1; Scroll 20; SetCourses secret_courses] 1).
  reflexivity.
Defined.

(* ===================================================================== *)
(** * The slideshow by its keys                                           *)
(* ===================================================================== *)

Lemma progress_story_screen (s s' : Story) :
  story_inv s -> screen_inv s -> progress_story s = Returned s' ->
  screen_inv s' /\ running s' = running s.
Proof.
  intros (Hidx & _ & _) [Hp Hs]. unfold progress_story. fold last_line.
  destruct (Z.ltb_spec (story_index s) last_line) as [Hlt|Hge].
  - destruct (py_getitem_in_range story_lines (story_index s + 1)) as (line & Hline & _).
    { unfold last_line in *. lia. }
    rewrite Hline. simpl.
    destruct (decide (story_index s + 1 ∈ star_trigger_indices));
      intros [= <-]; unfold screen_inv; simpl; (split; [split|]; try done);
      destruct (Z.eqb_spec (story_index s + 1) last_line) as [->|Hne];
      try (symmetry; apply Z.ltb_irrefl);
      rewrite Hp; symmetry; apply Z.ltb_lt; lia.
  - intros [= <-]. split; [split; [|done]|done].
    rewrite Hp. symmetry. apply Z.ltb_ge. lia.
Qed.

Lemma input_story (key : string) (s : Story) :
  story_inv s -> screen_inv s ->
  exists s', input key s = Returned s' /\ story_inv s' /\ screen_inv s' /\
    story_index s' =
      Z.min (story_index s + (if decide (key = "space") then 1 else 0)) last_line /\
    running s' = (if decide (key = "escape") then false else running s).
Proof.
  intros Hinv Hscr. unfold input.
  destruct (decide (key = "space")) as [->|Hns].
  - destruct (progress_story_spec s Hinv) as (s' & Hp & Hinv' & Hi & _).
    destruct (progress_story_screen s s' Hinv Hscr Hp) as [Hscr' Hrun].
    rewrite Hp. simpl. exists s'. split_and!; [done..| |done].
    rewrite Hi. destruct Hinv as (Hidx & _).
    destruct (Z.ltb_spec (story_index s) last_line); lia.
  - simpl. destruct (decide (key = "escape")) as [->|Hne].
    + exists (quit s). split_and!; [done..| |done].
      simpl. destruct Hinv as (Hidx & _). lia.
    + exists s. split_and!; [done..| |done].
      destruct Hinv as (Hidx & _). lia.
Qed.

Lemma story_run (keys : list string) (s : Story) :
  story_inv s -> screen_inv s ->
  exists s', foldl (fun o key => o ≫= input key) (Returned s) keys = Returned s' /\
    story_inv s' /\ screen_inv s' /\
    story_index s' = Z.min (story_index s + Z.of_nat (presses "space" keys)) last_line /\
    running s' = (if decide ("escape" ∈ keys) then false else running s).
Proof.
  revert s. induction keys as [|key keys IH]; intros s Hinv Hscr.
  - exists s. split_and!; [done..| |].
    + destruct Hinv as (Hidx & _). unfold presses. simpl. lia.
    + rewrite decide_False; [done|]. apply not_elem_of_nil.
  - destruct (input_story key s Hinv Hscr) as (s1 & H1 & Hinv1 & Hscr1 & Hi1 & Hr1).
    destruct (IH s1 Hinv1 Hscr1) as (s' & Hs' & Hinv' & Hscr' & Hi' & Hr').
    exists s'. simpl. rewrite H1. split_and!; [done..| |].
    + rewrite Hi', Hi1, presses_cons. destruct Hinv as (Hidx & _).
      destruct (decide (key = "space")); lia.
    + rewrite Hr', Hr1.
      destruct (decide (key = "escape")) as [->|Hne].
      * rewrite (decide_True (P := "escape" ∈ "escape" :: keys)) by left.
        by destruct (decide _).
      * destruct (decide ("escape" ∈ keys)) as [Hin|Hnin].
        -- by rewrite decide_True by by right.
        -- rewrite decide_False; [done|]. intros [?|?]%elem_of_cons; congruence.
Qed.

(** X13. The slideshow by its keys. After any keys, the index is the number of
    presses of space, capped at 15; the prompt is on the screen exactly while
    the index is below 15; the star counter shows [star_count]; and the
    application runs exactly while escape has not been pressed. *)
Theorem story_index_counts_space_presses (keys : list string) :
  exists s, story_session keys = Returned s /\
    story_index s = Z.min (Z.of_nat (presses "space" keys)) 15 /\
    (prompt_enabled s = true <-> story_index s < 15) /\
    star_text s = star_label (star_count s) /\
    (running s = true <-> "escape" ∉ keys).
Proof.
  destruct story_start_inv as (s0 & H0 & Hi0 & Hinv0).
  assert (Hscr0 : screen_inv s0) by (injection H0 as <-; by split).
  assert (Hrun0 : running s0 = true) by (by injection H0 as <-).
  destruct (story_run keys s0 Hinv0 Hscr0) as (s & Hs & _ & [Hp Hl] & Hi & Hr).
  exists s. unfold story_session. rewrite H0, Hs. split_and!; [done| | |done|].
  - rewrite Hi, Hi0. reflexivity.
  - rewrite Hp. change last_line with 15. apply Z.ltb_lt.
  - rewrite Hr, Hrun0. destruct (decide _); split; done.
Qed.

(* ===================================================================== *)
(** * The narrative game of road1k                                        *)
(* ===================================================================== *)

Lemma game_start_inv :
  exists g, Road1k.game_start = Returned g /\ Road1k.story_index g = 0 /\
    Road1k.running g = true /\ game_inv g.
Proof. eexists. split; [reflexivity|]. by split_and!. Qed.

Lemma advance_story_inv (g : Road1k.StarRoadGame) :
  game_inv g ->
  exists g', Road1k.advance_story g = Returned g' /\ game_inv g' /\
    Road1k.story_index g' = Road1k.story_index g + 1 /\
    Road1k.running g' = Road1k.running g.
Proof.
  intros (Hidx & Htext & Hprompt & Hstars & Hdisp & Hground).
  unfold Road1k.advance_story.
  destruct (Z.ltb_spec (Road1k.story_index g + 1) (Z.of_nat (length Road1k.story_text)))
    as [Hlt|Hge].
  - destruct (py_getitem_in_range Road1k.story_text (Road1k.story_index g + 1))
      as (line & -> & Hline); [lia|].
    simpl. eexists. split; [reflexivity|].
    assert (Hcases : Road1k.story_index g + 1 = 5 \/ Road1k.story_index g + 1 = 8 \/
                     Road1k.story_index g + 1 = 9 \/ Road1k.story_index g + 1 = 15 \/
                     (Road1k.story_index g + 1 <> 5 /\ Road1k.story_index g + 1 <> 8 /\
                      Road1k.story_index g + 1 <> 9 /\ Road1k.story_index g + 1 <> 15))
      by lia.
    assert (Htext' : Road1k.text_at (Road1k.story_index g + 1) = Some line).
    { unfold Road1k.text_at.
      by destruct (Z.ltb_spec (Road1k.story_index g + 1)
                     (Z.of_nat (length Road1k.story_text))); [|lia]. }
    assert (Hprompt' : Road1k.prompt_enabled g = true).
    { rewrite Hprompt. apply Z.ltb_lt. lia. }
    destruct Hcases as [H|[H|[H|[H|(H5 & H8 & H9 & H15)]]]].
    1-4: match type of H with _ = ?k =>
           assert (Hk : Road1k.story_index g = k - 1) by lia
         end;
         rewrite Hk in *; simpl; unfold game_inv; simpl;
         split_and!; done.
    rewrite (proj2 (Z.eqb_neq _ _) H5), (proj2 (Z.eqb_neq _ _) H8),
            (proj2 (Z.eqb_neq _ _) H9), (proj2 (Z.eqb_neq _ _) H15).
    unfold game_inv. simpl. split_and!; [lia|done| |..|done|done].
    + rewrite Hprompt'. symmetry. by apply Z.ltb_lt.
    + rewrite Hstars. unfold Road1k.stars_at.
      repeat match goal with |- context [?a <? ?b] =>
        destruct (Z.ltb_spec a b) end; lia.
    + done.
    + rewrite Hground. unfold ground_at.
      repeat match goal with |- context [?a <? ?b] =>
        destruct (Z.ltb_spec a b) end; (done || lia).
  - eexists. split; [reflexivity|]. unfold game_inv. simpl.
    change (Z.of_nat (length Road1k.story_text)) with 18 in *.
    split_and!; [lia| | | | |..|done|done].
    + unfold Road1k.text_at.
      by destruct (Z.ltb_spec (Road1k.story_index g + 1)
                     (Z.of_nat (length Road1k.story_text))); [simpl in *; lia|].
    + symmetry. apply Z.ltb_ge. lia.
    + rewrite Hstars. unfold Road1k.stars_at.
      repeat match goal with |- context [?a <? ?b] =>
        destruct (Z.ltb_spec a b) end; lia.
    + done.
    + rewrite Hground. unfold ground_at.
      repeat match goal with |- context [?a <? ?b] =>
        destruct (Z.ltb_spec a b) end; (done || lia).
Qed.

Lemma road1k_input_inv (key : string) (g : Road1k.StarRoadGame) :
  game_inv g ->
  exists g', Road1k.input key g = Returned g' /\ game_inv g' /\
    Road1k.story_index g' =
      Road1k.story_index g + (if decide (key = "space") then 1 else 0) /\
    Road1k.running g' = (if decide (key = "escape") then false else Road1k.running g).
Proof.
  intros Hinv. unfold Road1k.input.
  destruct (decide (key = "space")) as [->|Hns].
  - destruct (advance_story_inv g Hinv) as (g' & -> & Hinv' & Hi & Hr).
    simpl. by exists g'.
  - simpl. destruct (decide (key = "escape")) as [->|Hne].
    + exists (Road1k.quit g). split_and!; [done..| |done]. simpl. lia.
    + exists g. split_and!; [done..| |done]. lia.
Qed.

Lemma road1k_run (keys : list string) (g : Road1k.StarRoadGame) :
  game_inv g ->
  exists g', foldl (fun o key => o ≫= Road1k.input key) (Returned g) keys = Returned g' /\
    game_inv g' /\
    Road1k.story_index g' = Road1k.story_index g + Z.of_nat (presses "space" keys) /\
    Road1k.running g' = (if decide ("escape" ∈ keys) then false else Road1k.running g).
Proof.
  revert g. induction keys as [|key keys IH]; intros g Hinv.
  - exists g. split_and!; [done..| |].
    + unfold presses. simpl. lia.
    + rewrite decide_False; [done|]. apply not_elem_of_nil.
  - destruct (road1k_input_inv key g Hinv) as (g1 & H1 & Hinv1 & Hi1 & Hr1).
    destruct (IH g1 Hinv1) as (g' & Hg' & Hinv' & Hi' & Hr').
    exists g'. simpl. rewrite H1. split_and!; [done..| |].
    + rewrite Hi', Hi1, presses_cons. destruct (decide (key = "space")); lia.
    + rewrite Hr', Hr1.
      destruct (decide (key = "escape")) as [->|Hne].
      * rewrite (decide_True (P := "escape" ∈ "escape" :: keys)) by left.
        by destruct (decide _).
      * destruct (decide ("escape" ∈ keys)) as [Hin|Hnin].
        -- by rewrite decide_True by by right.
        -- rewrite decide_False; [done|]. intros [?|?]%elem_of_cons; congruence.
Qed.

(** X14. [road1k.py] counts every press of space, also past the end of the
    story: the index is the number of presses, the text is the line at that
    index or the closing line when there is none, the game never raises, and
    the prompt is on the screen exactly while fewer than 18 presses came. *)
Theorem road1k_story_index_is_unbounded (keys : list string) :
  exists g, Road1k.session keys = Returned g /\
    Road1k.story_index g = Z.of_nat (presses "space" keys) /\
    Road1k.narrative_text g =
      default Road1k.the_end (Road1k.story_text !! presses "space" keys) /\
    (Road1k.prompt_enabled g = true <-> (presses "space" keys < 18)%nat).
Proof.
  destruct game_start_inv as (g0 & H0 & Hi0 & _ & Hinv0).
  destruct (road1k_run keys g0 Hinv0) as (g & Hg & Hinv & Hi & _).
  exists g. unfold Road1k.session. rewrite H0, Hg.
  rewrite Hi0, Z.add_0_l in Hi.
  destruct Hinv as (_ & Htext & Hprompt & _).
  split_and!; [done..| |].
  - rewrite Hi in Htext. unfold Road1k.text_at in Htext.
    rewrite Nat2Z.id in Htext.
    destruct (Z.ltb_spec (Z.of_nat (presses "space" keys))
                (Z.of_nat (length Road1k.story_text))) as [Hlt|Hge].
    + by rewrite Htext.
    + rewrite lookup_ge_None_2 by lia. simpl. by injection Htext.
  - rewrite Hprompt, Hi. change (Z.of_nat (length Road1k.story_text)) with 18.
    rewrite Z.ltb_lt. lia.
Qed.

(** X15. In [road1k.py] the stars, their label and the colour of the ground
    are functions of the story index: 0, 40, 80, 120 and 121 stars from the
    indices 0, 5, 8, 9 and 15 on; the ground lime, blue from 9 and gold from
    15. *)
Theorem road1k_stars_follow_the_index (keys : list string) :
  exists g, Road1k.session keys = Returned g /\
    Road1k.star_count g = Road1k.stars_at (Road1k.story_index g) /\
    Road1k.star_display g = ("Stars: " +:+ pretty (Road1k.star_count g))%string /\
    Road1k.ground g =
      (if Road1k.story_index g <? 9 then Road1k.lime
       else if Road1k.story_index g <? 15 then Road1k.blue
       else Road1k.gold).
Proof.
  destruct game_start_inv as (g0 & H0 & _ & _ & Hinv0).
  destruct (road1k_run keys g0 Hinv0) as (g & Hg & Hinv & _).
  exists g. unfold Road1k.session. rewrite H0, Hg.
  destruct Hinv as (_ & _ & _ & Hstars & Hdisp & Hground). by split_and!.
Qed.
